(** * ReFiGrantFHE: the encrypted-batch ledger and its decryption protocol

    A shallow embedding of [contracts/ReFi_Grant_Fhe.sol] (Solidity ^0.8.24).
    Storage is a record of finite maps read with Solidity's zero default,
    every external function is a transaction [State -> Result (State * log)]
    in an error monad whose [Revert] discards all writes, and the FHE
    library the contract imports is an interface ([FHEVM]) the development
    is parameterised by. *)

From Stdlib Require Import ZArith Lia Bool List.
From Stdlib.Strings Require Import Byte.
From stdpp Require Import base option list gmap.

Local Open Scope Z_scope.

(** ** Value types *)

(** [uint256], [address] and [bytes32] are all word-sized integers. *)
Abbreviation uint256 := Z (only parsing).
Abbreviation address := Z (only parsing).
Abbreviation bytes32 := Z (only parsing).
Abbreviation bytes := (list byte) (only parsing).

Definition max_uint256 : Z := 2 ^ 256 - 1.

(** Modelled from the spec: the [euint32] ciphertext handle of the imported
    FHE library, "an opaque, serializable reference" whose uninitialized
    value is "a distinguished sentinel", the zero handle.  A handle is the
    [bytes32] it serializes to. *)
Abbreviation euint32 := Z (only parsing).

(** Modelled from the spec: [euint32(0)], the uninitialized handle. *)
Definition euint32_zero : euint32 := 0.

(** Modelled from the spec: [FHE.isInitialized], the explicit
    initialization check; a handle is initialized when it is not the
    sentinel. *)
Definition FHE_isInitialized (e : euint32) : bool := negb (e =? euint32_zero).

(** Modelled from the spec: [FHE.toBytes32], the serialization of a
    handle. *)
Definition FHE_toBytes32 (e : euint32) : bytes32 := e.

(** The capabilities of the imported FHE library and of the EVM that the
    contract calls but does not define. *)
Class FHEVM := {
  (** [a.fheMul(b)]: the homomorphic product of two handles *)
  fheMul : euint32 -> euint32 -> euint32;
  (** [keccak256(abi.encode(cts, addr))] *)
  keccak256_abi_encode : list bytes32 -> address -> bytes32;
  (** [FHE.checkSignatures(requestId, cleartexts, proof)]: [true] when the
      call returns, [false] when it throws *)
  checkSignatures : uint256 -> bytes -> bytes -> bool
}.

(** The same library with another signature verifier. *)
Definition with_verifier (fhe : FHEVM)
    (verifier : uint256 -> bytes -> bytes -> bool) : FHEVM :=
  {| fheMul := @fheMul fhe;
     keccak256_abi_encode := @keccak256_abi_encode fhe;
     checkSignatures := verifier |}.

(** ** Errors and the transaction monad *)

Inductive Error : Type :=
  | NotOwner
  | NotProvider
  | PausedError
  | CooldownActive
  | BatchNotActive
  | BatchAlreadyActive
  | InvalidBatch
  | ReplayAttempt
  | StateMismatch
  | DecryptionFailed
  (** [Panic(0x11)], raised by checked arithmetic on overflow *)
  | Panic_Overflow
  (** the plain revert of [abi.decode] on malformed data *)
  | AbiDecodeError.

Inductive Result (A : Type) : Type :=
  | Revert (e : Error)
  | Ok (a : A).
Arguments Revert {A} e.
Arguments Ok {A} a.

#[global] Instance Result_ret : MRet Result := fun A a => Ok a.
#[global] Instance Result_bind : MBind Result := fun A B f m =>
  match m with
  | Revert e => Revert e
  | Ok a => f a
  end.

(** [if (!b) revert e();] *)
Definition require (b : bool) (e : Error) : Result unit :=
  if b then Ok tt else Revert e.

(** Checked addition of Solidity 0.8. *)
Definition checked_add (a b : uint256) : Result uint256 :=
  if a + b <=? max_uint256 then Ok (a + b) else Revert Panic_Overflow.

(** Big-endian value of a byte string. *)
Definition be_value (bs : bytes) : Z :=
  fold_left (fun acc b => acc * 256 + Z.of_N (Byte.to_N b)) bs 0.

(** [abi.decode(data, (uint256))]: the first 32-byte word; shorter data
    reverts. *)
Definition abi_decode_uint256 (data : bytes) : Result uint256 :=
  if (length data <? 32)%nat then Revert AbiDecodeError
  else Ok (be_value (take 32 data)).

(** ** Storage *)

Record GrantApplication : Type := {
  encryptedAmount : euint32;
  encryptedScore : euint32;
  encryptedGrantAmount : euint32
}.

Record DecryptionContext : Type := {
  batchId : uint256;
  stateHash : bytes32;
  processed : bool
}.

Record State : Type := {
  owner : address;
  isProvider : gmap Z bool;
  paused : bool;
  cooldownSeconds : uint256;
  lastSubmissionTime : gmap Z Z;
  lastDecryptionRequestTime : gmap Z Z;
  applications : gmap Z GrantApplication;
  batchActive : gmap Z bool;
  batchTotalEncryptedAmount : gmap Z Z;
  batchTotalEncryptedScore : gmap Z Z;
  decryptionContexts : gmap Z DecryptionContext
}.

(** Reading a Solidity mapping: a key never written reads as zero. *)
Definition mapping_get {V : Type} (zero : V) (m : gmap Z V) (k : Z) : V :=
  default zero (m !! k).

Definition GrantApplication_zero : GrantApplication :=
  {| encryptedAmount := euint32_zero;
     encryptedScore := euint32_zero;
     encryptedGrantAmount := euint32_zero |}.

Definition DecryptionContext_zero : DecryptionContext :=
  {| batchId := 0; stateHash := 0; processed := false |}.

Definition isProvider_at (s : State) (a : address) : bool :=
  mapping_get false (isProvider s) a.
Definition lastSubmissionTime_at (s : State) (a : address) : uint256 :=
  mapping_get 0 (lastSubmissionTime s) a.
Definition lastDecryptionRequestTime_at (s : State) (a : address) : uint256 :=
  mapping_get 0 (lastDecryptionRequestTime s) a.
Definition applications_at (s : State) (b : uint256) : GrantApplication :=
  mapping_get GrantApplication_zero (applications s) b.
Definition batchActive_at (s : State) (b : uint256) : bool :=
  mapping_get false (batchActive s) b.
Definition decryptionContexts_at (s : State) (r : uint256) : DecryptionContext :=
  mapping_get DecryptionContext_zero (decryptionContexts s) r.

(** Field updates. *)
Definition set_owner (v : address) (s : State) : State :=
  {| owner := v; isProvider := isProvider s; paused := paused s;
     cooldownSeconds := cooldownSeconds s;
     lastSubmissionTime := lastSubmissionTime s;
     lastDecryptionRequestTime := lastDecryptionRequestTime s;
     applications := applications s; batchActive := batchActive s;
     batchTotalEncryptedAmount := batchTotalEncryptedAmount s;
     batchTotalEncryptedScore := batchTotalEncryptedScore s;
     decryptionContexts := decryptionContexts s |}.

Definition set_isProvider (v : gmap Z bool) (s : State) : State :=
  {| owner := owner s; isProvider := v; paused := paused s;
     cooldownSeconds := cooldownSeconds s;
     lastSubmissionTime := lastSubmissionTime s;
     lastDecryptionRequestTime := lastDecryptionRequestTime s;
     applications := applications s; batchActive := batchActive s;
     batchTotalEncryptedAmount := batchTotalEncryptedAmount s;
     batchTotalEncryptedScore := batchTotalEncryptedScore s;
     decryptionContexts := decryptionContexts s |}.

Definition set_paused (v : bool) (s : State) : State :=
  {| owner := owner s; isProvider := isProvider s; paused := v;
     cooldownSeconds := cooldownSeconds s;
     lastSubmissionTime := lastSubmissionTime s;
     lastDecryptionRequestTime := lastDecryptionRequestTime s;
     applications := applications s; batchActive := batchActive s;
     batchTotalEncryptedAmount := batchTotalEncryptedAmount s;
     batchTotalEncryptedScore := batchTotalEncryptedScore s;
     decryptionContexts := decryptionContexts s |}.

Definition set_cooldownSeconds (v : uint256) (s : State) : State :=
  {| owner := owner s; isProvider := isProvider s; paused := paused s;
     cooldownSeconds := v;
     lastSubmissionTime := lastSubmissionTime s;
     lastDecryptionRequestTime := lastDecryptionRequestTime s;
     applications := applications s; batchActive := batchActive s;
     batchTotalEncryptedAmount := batchTotalEncryptedAmount s;
     batchTotalEncryptedScore := batchTotalEncryptedScore s;
     decryptionContexts := decryptionContexts s |}.

Definition set_lastSubmissionTime (v : gmap Z Z) (s : State) : State :=
  {| owner := owner s; isProvider := isProvider s; paused := paused s;
     cooldownSeconds := cooldownSeconds s;
     lastSubmissionTime := v;
     lastDecryptionRequestTime := lastDecryptionRequestTime s;
     applications := applications s; batchActive := batchActive s;
     batchTotalEncryptedAmount := batchTotalEncryptedAmount s;
     batchTotalEncryptedScore := batchTotalEncryptedScore s;
     decryptionContexts := decryptionContexts s |}.

Definition set_lastDecryptionRequestTime (v : gmap Z Z) (s : State) : State :=
  {| owner := owner s; isProvider := isProvider s; paused := paused s;
     cooldownSeconds := cooldownSeconds s;
     lastSubmissionTime := lastSubmissionTime s;
     lastDecryptionRequestTime := v;
     applications := applications s; batchActive := batchActive s;
     batchTotalEncryptedAmount := batchTotalEncryptedAmount s;
     batchTotalEncryptedScore := batchTotalEncryptedScore s;
     decryptionContexts := decryptionContexts s |}.

Definition set_applications (v : gmap Z GrantApplication) (s : State) : State :=
  {| owner := owner s; isProvider := isProvider s; paused := paused s;
     cooldownSeconds := cooldownSeconds s;
     lastSubmissionTime := lastSubmissionTime s;
     lastDecryptionRequestTime := lastDecryptionRequestTime s;
     applications := v; batchActive := batchActive s;
     batchTotalEncryptedAmount := batchTotalEncryptedAmount s;
     batchTotalEncryptedScore := batchTotalEncryptedScore s;
     decryptionContexts := decryptionContexts s |}.

Definition set_batchActive (v : gmap Z bool) (s : State) : State :=
  {| owner := owner s; isProvider := isProvider s; paused := paused s;
     cooldownSeconds := cooldownSeconds s;
     lastSubmissionTime := lastSubmissionTime s;
     lastDecryptionRequestTime := lastDecryptionRequestTime s;
     applications := applications s; batchActive := v;
     batchTotalEncryptedAmount := batchTotalEncryptedAmount s;
     batchTotalEncryptedScore := batchTotalEncryptedScore s;
     decryptionContexts := decryptionContexts s |}.

Definition set_decryptionContexts (v : gmap Z DecryptionContext) (s : State) : State :=
  {| owner := owner s; isProvider := isProvider s; paused := paused s;
     cooldownSeconds := cooldownSeconds s;
     lastSubmissionTime := lastSubmissionTime s;
     lastDecryptionRequestTime := lastDecryptionRequestTime s;
     applications := applications s; batchActive := batchActive s;
     batchTotalEncryptedAmount := batchTotalEncryptedAmount s;
     batchTotalEncryptedScore := batchTotalEncryptedScore s;
     decryptionContexts := v |}.

(** ** Events *)

Inductive Event : Type :=
  | OwnershipTransferred (previousOwner newOwner : address)
  | ProviderAdded (provider : address)
  | ProviderRemoved (provider : address)
  | Paused (account : address)
  | Unpaused (account : address)
  | CooldownSecondsSet (oldCooldownSeconds newCooldownSeconds : uint256)
  | BatchOpened (batch : uint256)
  | BatchClosed (batch : uint256)
  | GrantSubmitted (provider : address) (batch : uint256)
      (amount score : euint32)
  | DecryptionRequested (requestId batch : uint256) (hash : bytes32)
  | DecryptionCompleted (requestId batch : uint256)
      (totalAmount totalScore grantAmount : uint256).

(** ** The call environment *)

Record Env : Type := {
  msg_sender : address;
  block_timestamp : uint256;
  (** the request id [FHE.requestDecryption] hands back during this call *)
  bridge_requestId : uint256
}.

(** A transaction: the new storage and the emitted log, or a revert. *)
Abbreviation Tx := (Result (State * list Event)) (only parsing).

(** ** Modifiers *)

Definition onlyOwner (env : Env) (s : State) : Result unit :=
  require (msg_sender env =? owner s) NotOwner.

Definition onlyProvider (env : Env) (s : State) : Result unit :=
  require (isProvider_at s (msg_sender env)) NotProvider.

Definition whenNotPaused (s : State) : Result unit :=
  require (negb (paused s)) PausedError.

(** ** Administration *)

Definition constructor (env : Env) : State * list Event :=
  let o := msg_sender env in
  ({| owner := o; isProvider := {[ o := true ]}; paused := false;
      cooldownSeconds := 60;
      lastSubmissionTime := ∅; lastDecryptionRequestTime := ∅;
      applications := ∅; batchActive := ∅;
      batchTotalEncryptedAmount := ∅; batchTotalEncryptedScore := ∅;
      decryptionContexts := ∅ |},
   [ProviderAdded o]).

Definition transferOwnership (env : Env) (newOwner : address) (s : State) : Tx :=
  _ ← onlyOwner env s;
  let previousOwner := owner s in
  Ok (set_owner newOwner s, [OwnershipTransferred previousOwner newOwner]).

Definition addProvider (env : Env) (provider : address) (s : State) : Tx :=
  _ ← onlyOwner env s;
  if negb (isProvider_at s provider)
  then Ok (set_isProvider (<[provider := true]> (isProvider s)) s,
           [ProviderAdded provider])
  else Ok (s, []).

Definition removeProvider (env : Env) (provider : address) (s : State) : Tx :=
  _ ← onlyOwner env s;
  if isProvider_at s provider
  then Ok (set_isProvider (<[provider := false]> (isProvider s)) s,
           [ProviderRemoved provider])
  else Ok (s, []).

Definition pause (env : Env) (s : State) : Tx :=
  _ ← onlyOwner env s;
  _ ← whenNotPaused s;
  Ok (set_paused true s, [Paused (msg_sender env)]).

Definition unpause (env : Env) (s : State) : Tx :=
  _ ← onlyOwner env s;
  _ ← require (paused s) PausedError;
  Ok (set_paused false s, [Unpaused (msg_sender env)]).

Definition setCooldownSeconds (env : Env) (newCooldownSeconds : uint256)
    (s : State) : Tx :=
  _ ← onlyOwner env s;
  let oldCooldownSeconds := cooldownSeconds s in
  Ok (set_cooldownSeconds newCooldownSeconds s,
      [CooldownSecondsSet oldCooldownSeconds newCooldownSeconds]).

Definition openBatch (env : Env) (b : uint256) (s : State) : Tx :=
  _ ← onlyOwner env s;
  _ ← require (negb (batchActive_at s b)) BatchAlreadyActive;
  Ok (set_batchActive (<[b := true]> (batchActive s)) s, [BatchOpened b]).

Definition closeBatch (env : Env) (b : uint256) (s : State) : Tx :=
  _ ← onlyOwner env s;
  _ ← require (batchActive_at s b) BatchNotActive;
  Ok (set_batchActive (<[b := false]> (batchActive s)) s, [BatchClosed b]).

(** ** Submission *)

Definition submitGrantApplication (env : Env) (b : uint256)
    (amount score : euint32) (s : State) : Tx :=
  _ ← onlyProvider env s;
  _ ← whenNotPaused s;
  _ ← require (batchActive_at s b) BatchNotActive;
  ready ← checked_add (lastSubmissionTime_at s (msg_sender env))
                      (cooldownSeconds s);
  _ ← require (negb (block_timestamp env <? ready)) CooldownActive;
  let s1 := set_lastSubmissionTime
              (<[msg_sender env := block_timestamp env]> (lastSubmissionTime s)) s in
  let s2 := set_applications
              (<[b := {| encryptedAmount := amount;
                         encryptedScore := score;
                         encryptedGrantAmount := euint32_zero |}]>
                 (applications s1)) s1 in
  Ok (s2, [GrantSubmitted (msg_sender env) b amount score]).

(** ** The decryption protocol *)

Section Protocol.

Context {fhe : FHEVM}.
(** [address(this)] *)
Variable this : address.

(** The commitment both protocol functions compute:
    [keccak256(abi.encode(cts, address(this)))] over the one-element array
    holding the serialized grant-amount handle. *)
Definition commitment (e : euint32) : bytes32 :=
  keccak256_abi_encode [FHE_toBytes32 e] this.


Definition calculateAndRequestGrantAmountDecryption (env : Env) (b : uint256)
    (s : State) : Tx :=
  _ ← onlyOwner env s;
  _ ← whenNotPaused s;
  ready ← checked_add (lastDecryptionRequestTime_at s (msg_sender env))
                      (cooldownSeconds s);
  _ ← require (negb (block_timestamp env <? ready)) CooldownActive;
  let s1 := set_lastDecryptionRequestTime
              (<[msg_sender env := block_timestamp env]>
                 (lastDecryptionRequestTime s)) s in
  let app := applications_at s1 b in
  _ ← require (FHE_isInitialized (encryptedAmount app)) InvalidBatch;
  _ ← require (FHE_isInitialized (encryptedScore app)) InvalidBatch;
  let grant := fheMul (encryptedAmount app) (encryptedScore app) in
  let s2 := set_applications
              (<[b := {| encryptedAmount := encryptedAmount app;
                         encryptedScore := encryptedScore app;
                         encryptedGrantAmount := grant |}]>
                 (applications s1)) s1 in
  let cts := [FHE_toBytes32 grant] in
  let hash := keccak256_abi_encode cts this in
  let requestId := bridge_requestId env in
  let s3 := set_decryptionContexts
              (<[requestId := {| batchId := b; stateHash := hash;
                                 processed := false |}]>
                 (decryptionContexts s2)) s2 in
  Ok (s3, [DecryptionRequested requestId b hash]).

Definition myCallback (env : Env) (requestId : uint256)
    (cleartexts proof : bytes) (s : State) : Tx :=
  let ctx := decryptionContexts_at s requestId in
  _ ← require (negb (processed ctx)) ReplayAttempt;
  let app := applications_at s (batchId ctx) in
  let cts := [FHE_toBytes32 (encryptedGrantAmount app)] in
  let currentHash := keccak256_abi_encode cts this in
  _ ← require (currentHash =? stateHash ctx) StateMismatch;
  if checkSignatures requestId cleartexts proof then
    grantAmount ← abi_decode_uint256 cleartexts;
    let s1 := set_decryptionContexts
                (<[requestId := {| batchId := batchId ctx;
                                   stateHash := stateHash ctx;
                                   processed := true |}]>
                   (decryptionContexts s)) s in
    Ok (s1, [DecryptionCompleted requestId
               (batchId (decryptionContexts_at s1 requestId)) 0 0 grantAmount])
  else Revert DecryptionFailed.

(** ** The external interface *)

Inductive Call : Type :=
  | TransferOwnership (newOwner : address)
  | AddProvider (provider : address)
  | RemoveProvider (provider : address)
  | Pause
  | Unpause
  | SetCooldownSeconds (newCooldownSeconds : uint256)
  | OpenBatch (b : uint256)
  | CloseBatch (b : uint256)
  | SubmitGrantApplication (b : uint256) (amount score : euint32)
  | CalculateAndRequestGrantAmountDecryption (b : uint256)
  | MyCallback (requestId : uint256) (cleartexts proof : bytes).

Definition call (env : Env) (c : Call) (s : State) : Tx :=
  match c with
  | TransferOwnership newOwner => transferOwnership env newOwner s
  | AddProvider provider => addProvider env provider s
  | RemoveProvider provider => removeProvider env provider s
  | Pause => pause env s
  | Unpause => unpause env s
  | SetCooldownSeconds n => setCooldownSeconds env n s
  | OpenBatch b => openBatch env b s
  | CloseBatch b => closeBatch env b s
  | SubmitGrantApplication b amount score =>
      submitGrantApplication env b amount score s
  | CalculateAndRequestGrantAmountDecryption b =>
      calculateAndRequestGrantAmountDecryption env b s
  | MyCallback requestId cleartexts proof =>
      myCallback env requestId cleartexts proof s
  end.

(** The storage after a call: a revert rolls every write back. *)
Definition storage_after (env : Env) (c : Call) (s : State) : State :=
  match call env c s with
  | Ok (s', _) => s'
  | Revert _ => s
  end.

(** A history of calls, each with its own environment, oldest first. *)
Fixpoint run (history : list (Env * Call)) (s : State) : State :=
  match history with
  | [] => s
  | (env, c) :: rest => run rest (storage_after env c s)
  end.

(** The bridge hands out [r] during the call [(env, c)]. *)
Definition issues (r : uint256) (ec : Env * Call) : Prop :=
  match ec.2 with
  | CalculateAndRequestGrantAmountDecryption _ => bridge_requestId ec.1 = r
  | _ => False
  end.



End Protocol.

Definition succeeds {A : Type} (r : Result A) : Prop := exists a, r = Ok a.

(** ** A mock deployment, for running the model on concrete inputs *)

Module Mock.

(** A mock of the FHE library in the style of a local test network: a
    handle is the plaintext itself, the hash is an (unkeyed) checksum, and a
    proof is valid when it repeats the cleartext. *)
#[global] Instance fhevm : FHEVM := {|
  fheMul a b := a * b;
  keccak256_abi_encode cts a := 1 + a + foldr Z.add 0 cts;
  checkSignatures r cleartexts proof := be_value proof =? be_value cleartexts
|}.

Definition this : address := 4096.
Definition alice : address := 10.   (* deployer and owner *)
Definition bob : address := 11.     (* a provider *)
Definition carol : address := 12.   (* neither *)

Definition at_time (a : address) (t : uint256) : Env :=
  {| msg_sender := a; block_timestamp := t; bridge_requestId := 0 |}.

Definition requesting (a : address) (t r : uint256) : Env :=
  {| msg_sender := a; block_timestamp := t; bridge_requestId := r |}.

(** The 32-byte word encoding a small number. *)
Definition word (b : byte) : bytes := replicate 31 x00 ++ [b].

(** Deployed by alice; bob allowlisted; batch 1 open. *)
Definition deployed : State := (constructor (at_time alice 1000)).1.

Definition ready : State :=
  run this [(at_time alice 1000, AddProvider bob);
            (at_time alice 1000, OpenBatch 1)] deployed.

(** bob has submitted (amount 100, score 4) into batch 1. *)
Definition submitted : State :=
  run this [(at_time bob 1000, SubmitGrantApplication 1 100 4)] ready.

(** alice has derived the grant amount and requested its disclosure; the
    bridge answered with request id 7. *)
Definition requested : State :=
  run this [(requesting alice 2000 7,
             CalculateAndRequestGrantAmountDecryption 1)] submitted.

(** The callback for request 7 has been accepted. *)
Definition finalized : State :=
  run this [(at_time carol 2100, MyCallback 7 (word x2a) (word x2a))] requested.

(** bob submitted at time 1000, then alice raised the cooldown to the
    largest [uint256]. *)
Definition throttled : State :=
  run this [(at_time alice 1500, SetCooldownSeconds max_uint256)] submitted.

(** alice has paused the system; batch 1 is open, batch 2 is not. *)
Definition halted : State :=
  run this [(at_time alice 1500, Pause)] submitted.

End Mock.

(** ** The vocabulary of the specification *)

(** The error names of the specification's taxonomy. *)
Inductive SpecError : Type :=
  | Spec_NotOwner
  | Spec_NotSubmitter
  | Spec_Paused
  | Spec_CooldownActive
  | Spec_BatchNotOpen
  | Spec_BatchAlreadyOpen
  | Spec_InvalidBatch
  | Spec_UnknownRequest
  | Spec_ReplayAttempt
  | Spec_StateMismatch
  | Spec_DecryptionFailed.

(** The name under which the specification knows each error of the
    contract; language-level aborts have none. *)
Definition spec_name (e : Error) : option SpecError :=
  match e with
  | NotOwner => Some Spec_NotOwner
  | NotProvider => Some Spec_NotSubmitter
  | PausedError => Some Spec_Paused
  | CooldownActive => Some Spec_CooldownActive
  | BatchNotActive => Some Spec_BatchNotOpen
  | BatchAlreadyActive => Some Spec_BatchAlreadyOpen
  | InvalidBatch => Some Spec_InvalidBatch
  | ReplayAttempt => Some Spec_ReplayAttempt
  | StateMismatch => Some Spec_StateMismatch
  | DecryptionFailed => Some Spec_DecryptionFailed
  | Panic_Overflow => None
  | AbiDecodeError => None
  end.

Definition fails_with {A : Type} (r : Result A) (n : SpecError) : Prop :=
  exists e, r = Revert e /\ spec_name e = Some n.

(** The throttle condition of the specification: the actor's last action
    lies at least [cooldown] seconds back. *)
Definition cooldown_elapsed (last cooldown now : Z) : Prop :=
  last + cooldown <= now.

(** No context was ever persisted under request id [r]. *)
Definition never_issued (s : State) (r : uint256) : Prop :=
  decryptionContexts s !! r = None.

(** ** Views of a call and of the storage *)

(** The calls that carry the [onlyOwner] modifier. *)
Definition owner_only (c : Call) : bool :=
  match c with
  | SubmitGrantApplication _ _ _ => false
  | MyCallback _ _ _ => false
  | _ => true
  end.

(** The fields only the owner's calls write. *)
Definition same_administration (s s' : State) : Prop :=
  owner s' = owner s
  /\ isProvider s' = isProvider s
  /\ paused s' = paused s
  /\ cooldownSeconds s' = cooldownSeconds s
  /\ batchActive s' = batchActive s
  /\ lastDecryptionRequestTime s' = lastDecryptionRequestTime s.

(** What a callback leaves behind: its error, or the contexts after it and
    its log. *)
Definition callback_outcome (r : Result (State * list Event))
    : Error + gmap Z DecryptionContext * list Event :=
  match r with
  | Revert e => inl e
  | Ok (s', log) => inr (decryptionContexts s', log)
  end.

(** The storage a disclosure request for batch [b] leaves when it goes
    through. *)
Definition requested_storage {fhe : FHEVM} (this : address) (env : Env)
    (b : uint256) (s : State) : State :=
  let app := applications_at s b in
  let grant := fheMul (encryptedAmount app) (encryptedScore app) in
  set_decryptionContexts
    (<[bridge_requestId env :=
         {| batchId := b; stateHash := commitment this grant;
            processed := false |}]> (decryptionContexts s))
    (set_applications
       (<[b := {| encryptedAmount := encryptedAmount app;
                  encryptedScore := encryptedScore app;
                  encryptedGrantAmount := grant |}]> (applications s))
       (set_lastDecryptionRequestTime
          (<[msg_sender env := block_timestamp env]>
             (lastDecryptionRequestTime s)) s)).

(** * Properties *)

(** ** The transaction monad *)

Lemma bind_Ok {A B : Type} (a : A) (f : A -> Result B) :
  (Ok a ≫= f) = f a.
Proof. reflexivity. Qed.

Lemma bind_Revert {A B : Type} (e : Error) (f : A -> Result B) :
  (Revert e ≫= f) = Revert e.
Proof. reflexivity. Qed.

Lemma require_true (e : Error) : require true e = Ok tt.
Proof. reflexivity. Qed.

Lemma require_false (e : Error) : require false e = Revert e.
Proof. reflexivity. Qed.

Lemma checked_add_fits (a b : Z) :
  a + b <= max_uint256 -> checked_add a b = Ok (a + b).
Proof.
  intros H. unfold checked_add.
  destruct (Z.leb_spec (a + b) max_uint256); [reflexivity | lia].
Qed.

Lemma checked_add_overflow (a b : Z) :
  max_uint256 < a + b -> checked_add a b = Revert Panic_Overflow.
Proof.
  intros H. unfold checked_add.
  destruct (Z.leb_spec (a + b) max_uint256); [lia | reflexivity].
Qed.

Lemma mapping_get_insert_eq {V : Type} (zero v : V) (m : gmap Z V) (k : Z) :
  mapping_get zero (<[k := v]> m) k = v.
Proof. unfold mapping_get. by rewrite lookup_insert_eq. Qed.

Lemma mapping_get_insert_ne {V : Type} (zero v : V) (m : gmap Z V) (k k' : Z) :
  k <> k' -> mapping_get zero (<[k := v]> m) k' = mapping_get zero m k'.
Proof. intros H. unfold mapping_get. by rewrite lookup_insert_ne. Qed.

(** Splits a transaction along its guards. *)
Ltac tx_cases :=
  repeat match goal with
  | |- context [require ?b ?e] =>
      let E := fresh "G" in
      destruct b eqn:E;
      [rewrite require_true | rewrite require_false]; cbn [mbind Result_bind]
  | |- context [checked_add ?a ?b] =>
      let E := fresh "G" in
      destruct (checked_add a b) eqn:E; cbn [mbind Result_bind]
  | |- context [abi_decode_uint256 ?d] =>
      let E := fresh "G" in
      destruct (abi_decode_uint256 d) eqn:E; cbn [mbind Result_bind]
  | |- context [if ?b then _ else _] =>
      let E := fresh "G" in destruct b eqn:E
  end.

Example Mock_requested_context :
  decryptionContexts_at Mock.requested 7
  = {| batchId := 1; stateHash := 1 + 4096 + 400; processed := false |}.
Proof. vm_compute. reflexivity. Qed.

Example Mock_finalized_context :
  processed (decryptionContexts_at Mock.finalized 7) = true.
Proof. vm_compute. reflexivity. Qed.

(** ** Replay protection *)

Section Replay.

Context {fhe : FHEVM}.
Variable this : address.

(** A callback on a finalized request is rejected before anything else. *)
Lemma myCallback_processed env r cleartexts proof s :
  processed (decryptionContexts_at s r) = true ->
  myCallback this env r cleartexts proof s = Revert ReplayAttempt.
Proof. intros H. unfold myCallback. rewrite H. reflexivity. Qed.

(** An accepted callback leaves its request finalized. *)
Lemma myCallback_finalizes env r cleartexts proof s s' log :
  myCallback this env r cleartexts proof s = Ok (s', log) ->
  processed (decryptionContexts_at s' r) = true.
Proof.
  unfold myCallback. tx_cases; intros H; try discriminate.
  injection H as <- _. unfold decryptionContexts_at. cbn.
  by rewrite mapping_get_insert_eq.
Qed.

(** No call un-finalizes a request, unless the bridge hands its id out
    again. *)
Lemma storage_after_processed env c r s :
  ~ issues r (env, c) ->
  processed (decryptionContexts_at s r) = true ->
  processed (decryptionContexts_at (storage_after this env c s) r) = true.
Proof.
  intros Hfresh Hp. unfold storage_after.
  destruct c; cbn [call].
  all: try (match goal with
            | |- context [match ?t with Revert _ => _ | Ok _ => _ end] =>
                unfold transferOwnership, addProvider, removeProvider, pause,
                  unpause, setCooldownSeconds, openBatch, closeBatch,
                  submitGrantApplication, onlyOwner, onlyProvider, whenNotPaused
            end; tx_cases; exact Hp).
  - unfold calculateAndRequestGrantAmountDecryption, onlyOwner, whenNotPaused.
    tx_cases; try exact Hp.
    unfold decryptionContexts_at. cbn.
    rewrite mapping_get_insert_ne; [exact Hp |].
    intros Heq. apply Hfresh. exact Heq.
  - destruct (myCallback this env requestId cleartexts proof s)
      as [e | [s' log]] eqn:Hcb; [exact Hp |].
    destruct (decide (requestId = r)) as [-> | Hne].
    + eapply myCallback_finalizes; eassumption.
    + revert Hcb. unfold myCallback. tx_cases; intros H; try discriminate.
      injection H as <- _. unfold decryptionContexts_at. cbn.
      rewrite mapping_get_insert_ne; [exact Hp | exact Hne].
Qed.

Lemma run_processed history r s :
  Forall (fun ec => ~ issues r ec) history ->
  processed (decryptionContexts_at s r) = true ->
  processed (decryptionContexts_at (run this history s) r) = true.
Proof.
  intros Hfresh. revert s.
  induction Hfresh as [| [env c] rest Hec _ IH]; intros s Hp; cbn [run].
  - exact Hp.
  - apply IH. by apply storage_after_processed.
Qed.

End Replay.

(** C1. Exactly-once finalization: once the context of a request id is
    processed, it stays processed through every later history of calls
    (the bridge, which is trusted to hand out unique ids, not issuing that
    id again), and every further callback for it, whoever sends it and
    whatever cleartext and proof it carries, reverts with ReplayAttempt and
    changes nothing. *)
Theorem exactly_once_finalization {fhe : FHEVM} (this : address)
    (s : State) (r : uint256) (history : list (Env * Call)) :
  processed (decryptionContexts_at s r) = true ->
  Forall (fun ec => ~ issues r ec) history ->
  processed (decryptionContexts_at (run this history s) r) = true
  /\ forall env cleartexts proof,
       myCallback this env r cleartexts proof (run this history s)
         = Revert ReplayAttempt
       /\ storage_after this env (MyCallback r cleartexts proof)
            (run this history s) = run this history s.
Proof.
  intros Hp Hfresh.
  pose proof (run_processed this history r s Hfresh Hp) as Hp'.
  split; [exact Hp' |].
  intros env cleartexts proof.
  pose proof (myCallback_processed this env r cleartexts proof _ Hp') as Hcb.
  split; [exact Hcb |].
  unfold storage_after. cbn [call]. rewrite Hcb. reflexivity.
Qed.

(** After the accepted callback of request 7: a repeated callback, a new
    submission, a fresh request (id 8) and its callback later, request 7 is
    still finalized and still rejects callbacks. *)
Lemma exactly_once_finalization_witness :
  processed (decryptionContexts_at Mock.finalized 7) = true
  /\ processed (decryptionContexts_at
       (run Mock.this
          [(Mock.at_time Mock.carol 2100,
            MyCallback 7 (Mock.word x2a) (Mock.word x2a));
           (Mock.at_time Mock.bob 2200, SubmitGrantApplication 1 50 3);
           (Mock.requesting Mock.alice 2300 8,
            CalculateAndRequestGrantAmountDecryption 1);
           (Mock.at_time Mock.carol 2400,
            MyCallback 8 (Mock.word x2a) (Mock.word x2a))]
          Mock.finalized) 7) = true
  /\ myCallback Mock.this (Mock.at_time Mock.carol 2500) 7
       (Mock.word x2a) (Mock.word x2a)
       (run Mock.this
          [(Mock.at_time Mock.carol 2100,
            MyCallback 7 (Mock.word x2a) (Mock.word x2a));
           (Mock.at_time Mock.bob 2200, SubmitGrantApplication 1 50 3);
           (Mock.requesting Mock.alice 2300 8,
            CalculateAndRequestGrantAmountDecryption 1);
           (Mock.at_time Mock.carol 2400,
            MyCallback 8 (Mock.word x2a) (Mock.word x2a))]
          Mock.finalized)
     = Revert ReplayAttempt.
Proof.
  assert (Hp : processed (decryptionContexts_at Mock.finalized 7) = true)
    by (vm_compute; reflexivity).
  split; [exact Hp |].
  pose proof (exactly_once_finalization Mock.this Mock.finalized 7
    [(Mock.at_time Mock.carol 2100,
      MyCallback 7 (Mock.word x2a) (Mock.word x2a));
     (Mock.at_time Mock.bob 2200, SubmitGrantApplication 1 50 3);
     (Mock.requesting Mock.alice 2300 8,
      CalculateAndRequestGrantAmountDecryption 1);
     (Mock.at_time Mock.carol 2400,
      MyCallback 8 (Mock.word x2a) (Mock.word x2a))] Hp) as H.
  destruct H as [H1 H2].
  - repeat constructor; cbn; intros H; try exact H; discriminate H.
  - split; [exact H1 |].
    exact (proj1 (H2 (Mock.at_time Mock.carol 2500)
                     (Mock.word x2a) (Mock.word x2a))).
Defined.

(** The trust in the bridge is needed: were it to hand out the id of a
    finalized request a second time, the new request would overwrite the
    context and reopen it. *)
Remark bridge_uniqueness_needed :
  processed (decryptionContexts_at Mock.finalized 7) = true
  /\ processed
       (decryptionContexts_at
          (run Mock.this
             [(Mock.requesting Mock.alice 2300 7,
               CalculateAndRequestGrantAmountDecryption 1)]
             Mock.finalized) 7) = false.
Proof. split; vm_compute; reflexivity. Qed.

(** ** The callback, case by case *)

Section Callback.

Context {fhe : FHEVM}.
Variable this : address.

Lemma myCallback_stale env r cleartexts proof s :
  processed (decryptionContexts_at s r) = false ->
  commitment this
    (encryptedGrantAmount
       (applications_at s (batchId (decryptionContexts_at s r))))
    <> stateHash (decryptionContexts_at s r) ->
  myCallback this env r cleartexts proof s = Revert StateMismatch.
Proof.
  intros Hp Hh. unfold myCallback. rewrite Hp. cbn.
  unfold commitment in Hh.
  destruct (Z.eqb_spec
    (keccak256_abi_encode
       [FHE_toBytes32 (encryptedGrantAmount
          (applications_at s (batchId (decryptionContexts_at s r))))] this)
    (stateHash (decryptionContexts_at s r))) as [Heq | _].
  - contradiction.
  - reflexivity.
Qed.

Lemma myCallback_bad_proof env r cleartexts proof s :
  processed (decryptionContexts_at s r) = false ->
  commitment this
    (encryptedGrantAmount
       (applications_at s (batchId (decryptionContexts_at s r))))
    = stateHash (decryptionContexts_at s r) ->
  checkSignatures r cleartexts proof = false ->
  myCallback this env r cleartexts proof s = Revert DecryptionFailed.
Proof.
  intros Hp Hh Hv. unfold myCallback. rewrite Hp. cbn.
  unfold commitment in Hh. rewrite Hh, Z.eqb_refl, Hv. reflexivity.
Qed.

Lemma myCallback_accepts env r cleartexts proof s amount :
  processed (decryptionContexts_at s r) = false ->
  commitment this
    (encryptedGrantAmount
       (applications_at s (batchId (decryptionContexts_at s r))))
    = stateHash (decryptionContexts_at s r) ->
  checkSignatures r cleartexts proof = true ->
  abi_decode_uint256 cleartexts = Ok amount ->
  myCallback this env r cleartexts proof s
  = Ok (set_decryptionContexts
          (<[r := {| batchId := batchId (decryptionContexts_at s r);
                     stateHash := stateHash (decryptionContexts_at s r);
                     processed := true |}]> (decryptionContexts s)) s,
        [DecryptionCompleted r (batchId (decryptionContexts_at s r))
           0 0 amount]).
Proof.
  intros Hp Hh Hv Hd. unfold myCallback. rewrite Hp. cbn.
  unfold commitment in Hh. rewrite Hh, Z.eqb_refl, Hv, Hd. cbn.
  do 3 f_equal. unfold decryptionContexts_at at 1.
  cbn [decryptionContexts set_decryptionContexts].
  rewrite mapping_get_insert_eq. reflexivity.
Qed.

(** What an accepted callback must have passed. *)
Lemma myCallback_Ok_inv env r cleartexts proof s s' log :
  myCallback this env r cleartexts proof s = Ok (s', log) ->
  processed (decryptionContexts_at s r) = false
  /\ commitment this
       (encryptedGrantAmount
          (applications_at s (batchId (decryptionContexts_at s r))))
     = stateHash (decryptionContexts_at s r)
  /\ checkSignatures r cleartexts proof = true
  /\ exists amount, abi_decode_uint256 cleartexts = Ok amount.
Proof.
  unfold myCallback, commitment.
  destruct (processed (decryptionContexts_at s r)); cbn; [discriminate |].
  destruct (Z.eqb_spec
    (keccak256_abi_encode
       [FHE_toBytes32 (encryptedGrantAmount
          (applications_at s (batchId (decryptionContexts_at s r))))] this)
    (stateHash (decryptionContexts_at s r))) as [Heq | _];
    cbn; [| discriminate].
  destruct (checkSignatures r cleartexts proof); [| discriminate].
  destruct (abi_decode_uint256 cleartexts) as [e | amount]; cbn;
    [discriminate |].
  intros _. repeat split; try assumption. by exists amount.
Qed.

Lemma abi_decode_uint256_long (data : bytes) :
  (32 <= length data)%nat -> succeeds (abi_decode_uint256 data).
Proof.
  intros H. unfold abi_decode_uint256.
  destruct (Nat.ltb_spec (length data) 32); [lia |].
  by eexists.
Qed.

End Callback.

(** A submission that goes through rewrites exactly two storage fields. *)
Lemma submitGrantApplication_Ok_inv env b amount score s s' log :
  submitGrantApplication env b amount score s = Ok (s', log) ->
  s' = set_applications
         (<[b := {| encryptedAmount := amount; encryptedScore := score;
                    encryptedGrantAmount := euint32_zero |}]> (applications s))
         (set_lastSubmissionTime
            (<[msg_sender env := block_timestamp env]> (lastSubmissionTime s))
            s)
  /\ log = [GrantSubmitted (msg_sender env) b amount score].
Proof.
  unfold submitGrantApplication, onlyProvider, whenNotPaused.
  tx_cases; intros H; try discriminate.
  injection H as <- <-. split; reflexivity.
Qed.






(** No error of the contract is the specification's UnknownRequest. *)
Lemma spec_name_not_UnknownRequest (e : Error) :
  spec_name e <> Some Spec_UnknownRequest.
Proof. destruct e; discriminate. Qed.

Lemma never_issued_reads_zero (s : State) (r : uint256) :
  never_issued s r -> decryptionContexts_at s r = DecryptionContext_zero.
Proof.
  unfold never_issued, decryptionContexts_at, mapping_get.
  intros ->. reflexivity.
Qed.

(** C3, as stated, fails: in the freshly deployed contract no request was
    ever issued, and the callback for request id 7 reverts with
    StateMismatch, not with UnknownRequest. *)
Lemma unknown_request_counterexample :
  never_issued Mock.deployed 7
  /\ myCallback Mock.this (Mock.at_time Mock.carol 1000) 7 [] [] Mock.deployed
     = Revert StateMismatch
  /\ ~ fails_with
         (myCallback Mock.this (Mock.at_time Mock.carol 1000) 7 [] []
            Mock.deployed)
         Spec_UnknownRequest.
Proof.
  split; [vm_compute; reflexivity |].
  split; [vm_compute; reflexivity |].
  intros [e [_ He]]. exact (spec_name_not_UnknownRequest e He).
Qed.

(** C3, amended.  For a request id under which no context was ever
    persisted the callback performs no existence check and never fails with
    UnknownRequest: it reads the all-zero context (batch 0, zero hash, not
    processed), so it reverts with StateMismatch for all cleartext and proof
    arguments whenever the hash of batch 0's current grant-amount handle is
    not zero; were that hash zero, the outcome would be that of proof
    verification. *)
Theorem unknown_request_outcome {fhe : FHEVM} (this : address) (env : Env)
    (r : uint256) (cleartexts proof : bytes) (s : State) :
  never_issued s r ->
  ~ fails_with (myCallback this env r cleartexts proof s) Spec_UnknownRequest
  /\ myCallback this env r cleartexts proof s <> Revert ReplayAttempt
  /\ (commitment this (encryptedGrantAmount (applications_at s 0)) <> 0 ->
      myCallback this env r cleartexts proof s = Revert StateMismatch)
  /\ (commitment this (encryptedGrantAmount (applications_at s 0)) = 0 ->
      checkSignatures r cleartexts proof = false ->
      myCallback this env r cleartexts proof s = Revert DecryptionFailed)
  /\ (commitment this (encryptedGrantAmount (applications_at s 0)) = 0 ->
      checkSignatures r cleartexts proof = true ->
      (32 <= length cleartexts)%nat ->
      succeeds (myCallback this env r cleartexts proof s)).
Proof.
  intros Hnew. pose proof (never_issued_reads_zero s r Hnew) as Hz.
  assert (Hp : processed (decryptionContexts_at s r) = false)
    by (rewrite Hz; reflexivity).
  assert (Hb : batchId (decryptionContexts_at s r) = 0)
    by (rewrite Hz; reflexivity).
  assert (Hh : stateHash (decryptionContexts_at s r) = 0)
    by (rewrite Hz; reflexivity).
  split; [| split; [| split; [| split]]].
  - intros [e [_ He]]. exact (spec_name_not_UnknownRequest e He).
  - unfold myCallback. rewrite Hp. cbn [negb].
    rewrite require_true. cbn [mbind Result_bind].
    unfold abi_decode_uint256.
    tx_cases; intros H; discriminate H.
  - intros Hne. apply myCallback_stale; [exact Hp |].
    rewrite Hb, Hh. exact Hne.
  - intros Heq Hv. apply myCallback_bad_proof; [exact Hp | | exact Hv].
    rewrite Hb, Hh. exact Heq.
  - intros Heq Hv Hlen.
    destruct (abi_decode_uint256_long cleartexts Hlen) as [amount Hd].
    eexists. apply myCallback_accepts with (amount := amount);
      [exact Hp | | exact Hv | exact Hd].
    rewrite Hb, Hh. exact Heq.
Qed.

Lemma unknown_request_outcome_witness :
  never_issued Mock.requested 9
  /\ myCallback Mock.this (Mock.at_time Mock.carol 2100) 9
       (Mock.word x2a) (Mock.word x2a) Mock.requested
     = Revert StateMismatch.
Proof.
  assert (Hnew : never_issued Mock.requested 9) by (vm_compute; reflexivity).
  split; [exact Hnew |].
  apply (unknown_request_outcome Mock.this (Mock.at_time Mock.carol 2100) 9
           (Mock.word x2a) (Mock.word x2a) Mock.requested Hnew).
  vm_compute. discriminate.
Defined.

(** ** Derivation and disclosure request *)

(** C4. Derivation-and-request postcondition: called by the owner, unpaused
    and with the request cooldown elapsed, the call reverts with
    InvalidBatch when the batch's encryptedAmount or encryptedScore is
    uninitialized; otherwise it stores the homomorphic product of the two as
    encryptedGrantAmount, hashes the serialized product handle together with
    the contract's address, and persists the context (batchId, stateHash,
    processed false) under the request id the bridge returned, emitting
    DecryptionRequested with the same three values. *)
Theorem derivation_and_request {fhe : FHEVM} (this : address) (env : Env)
    (b : uint256) (s : State) :
  msg_sender env = owner s ->
  paused s = false ->
  block_timestamp env <= max_uint256 ->
  cooldown_elapsed (lastDecryptionRequestTime_at s (msg_sender env))
    (cooldownSeconds s) (block_timestamp env) ->
  (FHE_isInitialized (encryptedAmount (applications_at s b)) = false
   \/ FHE_isInitialized (encryptedScore (applications_at s b)) = false ->
   calculateAndRequestGrantAmountDecryption this env b s = Revert InvalidBatch)
  /\ (FHE_isInitialized (encryptedAmount (applications_at s b)) = true ->
      FHE_isInitialized (encryptedScore (applications_at s b)) = true ->
      exists s',
        calculateAndRequestGrantAmountDecryption this env b s
        = Ok (s', [DecryptionRequested (bridge_requestId env) b
                     (commitment this
                        (fheMul (encryptedAmount (applications_at s b))
                                (encryptedScore (applications_at s b))))])
        /\ applications_at s' b
           = {| encryptedAmount := encryptedAmount (applications_at s b);
                encryptedScore := encryptedScore (applications_at s b);
                encryptedGrantAmount :=
                  fheMul (encryptedAmount (applications_at s b))
                         (encryptedScore (applications_at s b)) |}
        /\ decryptionContexts s' !! bridge_requestId env
           = Some {| batchId := b;
                     stateHash :=
                       commitment this
                         (fheMul (encryptedAmount (applications_at s b))
                                 (encryptedScore (applications_at s b)));
                     processed := false |}
        /\ lastDecryptionRequestTime_at s' (msg_sender env)
           = block_timestamp env).
Proof.
  intros Hown Hrun Hnow Hcool. unfold cooldown_elapsed in Hcool.
  assert (Hpre :
    calculateAndRequestGrantAmountDecryption this env b s =
    (_ ← require (FHE_isInitialized (encryptedAmount (applications_at s b)))
           InvalidBatch;
     _ ← require (FHE_isInitialized (encryptedScore (applications_at s b)))
           InvalidBatch;
     Ok (set_decryptionContexts
           (<[bridge_requestId env :=
                {| batchId := b;
                   stateHash := commitment this
                     (fheMul (encryptedAmount (applications_at s b))
                             (encryptedScore (applications_at s b)));
                   processed := false |}]> (decryptionContexts s))
           (set_applications
              (<[b := {| encryptedAmount := encryptedAmount (applications_at s b);
                         encryptedScore := encryptedScore (applications_at s b);
                         encryptedGrantAmount :=
                           fheMul (encryptedAmount (applications_at s b))
                                  (encryptedScore (applications_at s b)) |}]>
                 (applications s))
              (set_lastDecryptionRequestTime
                 (<[msg_sender env := block_timestamp env]>
                    (lastDecryptionRequestTime s)) s)),
         [DecryptionRequested (bridge_requestId env) b
            (commitment this
               (fheMul (encryptedAmount (applications_at s b))
                       (encryptedScore (applications_at s b))))]))).
  { unfold calculateAndRequestGrantAmountDecryption,
      onlyOwner, whenNotPaused.
    rewrite Hown in Hcool.
    rewrite Hown, Z.eqb_refl, Hrun. cbn [negb].
    rewrite !require_true. cbn [mbind Result_bind].
    rewrite checked_add_fits by lia. cbn [mbind Result_bind].
    destruct (Z.ltb_spec (block_timestamp env)
                (lastDecryptionRequestTime_at s (owner s) + cooldownSeconds s))
      as [Hlt | _]; [lia |].
    cbn [negb]. rewrite require_true. cbn [mbind Result_bind].
    reflexivity. }
  split.
  - intros Huninit. rewrite Hpre.
    destruct Huninit as [-> | Hs].
    + reflexivity.
    + rewrite Hs.
      destruct (FHE_isInitialized (encryptedAmount (applications_at s b)));
        reflexivity.
  - intros Ha Hs. eexists. split; [| split; [| split]].
    + rewrite Hpre, Ha, Hs. reflexivity.
    + unfold applications_at at 1. cbn [applications set_applications
        set_decryptionContexts]. by rewrite mapping_get_insert_eq.
    + cbn [decryptionContexts set_decryptionContexts].
      by rewrite lookup_insert_eq.
    + unfold lastDecryptionRequestTime_at at 1.
      cbn [lastDecryptionRequestTime set_applications
        set_decryptionContexts set_lastDecryptionRequestTime].
      by rewrite mapping_get_insert_eq.
Qed.

(** alice requests the grant amount of batch 1 (amount 100, score 4): the
    product handle is stored and request 7 commits to it. *)
Lemma derivation_and_request_witness :
  msg_sender (Mock.requesting Mock.alice 2000 7) = owner Mock.submitted
  /\ paused Mock.submitted = false
  /\ exists s',
       calculateAndRequestGrantAmountDecryption Mock.this
         (Mock.requesting Mock.alice 2000 7) 1 Mock.submitted
       = Ok (s', [DecryptionRequested 7 1 4497])
       /\ encryptedGrantAmount (applications_at s' 1) = 400.
Proof.
  assert (Hown : msg_sender (Mock.requesting Mock.alice 2000 7)
                 = owner Mock.submitted) by reflexivity.
  assert (Hrun : paused Mock.submitted = false) by reflexivity.
  split; [exact Hown |]. split; [exact Hrun |].
  destruct (derivation_and_request Mock.this
              (Mock.requesting Mock.alice 2000 7) 1 Mock.submitted Hown Hrun)
    as [_ Hok].
  - vm_compute. discriminate.
  - vm_compute. discriminate.
  - destruct Hok as [s' [Hcall [Happ _]]].
    + vm_compute; reflexivity.
    + vm_compute; reflexivity.
    + exists s'. split.
      * exact Hcall.
      * rewrite Happ. vm_compute; reflexivity.
Defined.

(** ** Submission and its throttle *)

(** The guards of a submission, in the order the contract evaluates them. *)
Lemma submitGrantApplication_guards env b amount score s :
  submitGrantApplication env b amount score s
  = if negb (isProvider_at s (msg_sender env)) then Revert NotProvider
    else if paused s then Revert PausedError
    else if negb (batchActive_at s b) then Revert BatchNotActive
    else if max_uint256
            <? lastSubmissionTime_at s (msg_sender env) + cooldownSeconds s
    then Revert Panic_Overflow
    else if block_timestamp env
            <? lastSubmissionTime_at s (msg_sender env) + cooldownSeconds s
    then Revert CooldownActive
    else Ok (set_applications
               (<[b := {| encryptedAmount := amount; encryptedScore := score;
                          encryptedGrantAmount := euint32_zero |}]>
                  (applications s))
               (set_lastSubmissionTime
                  (<[msg_sender env := block_timestamp env]>
                     (lastSubmissionTime s)) s),
             [GrantSubmitted (msg_sender env) b amount score]).
Proof.
  unfold submitGrantApplication, onlyProvider, whenNotPaused, checked_add.
  destruct (isProvider_at s (msg_sender env)); cbn; [| reflexivity].
  destruct (paused s); cbn; [reflexivity |].
  destruct (batchActive_at s b); cbn; [| reflexivity].
  destruct (Z.leb_spec
              (lastSubmissionTime_at s (msg_sender env) + cooldownSeconds s)
              max_uint256) as [Hfit | Hover];
    destruct (Z.ltb_spec max_uint256
                (lastSubmissionTime_at s (msg_sender env) + cooldownSeconds s))
      as [Hover' | Hfit']; try lia; cbn; [| reflexivity].
  destruct (block_timestamp env
              <? lastSubmissionTime_at s (msg_sender env) + cooldownSeconds s);
    reflexivity.
Qed.

(** C5, as stated, fails: bob is allowlisted, the system is unpaused and
    batch 1 is open; his cooldown has not elapsed (his last submission was
    at time 1000 and the cooldown is the largest [uint256]), yet the
    submission at time 2000 aborts with the arithmetic panic of the checked
    addition, not with CooldownActive. *)
Lemma submit_counterexample :
  isProvider_at Mock.throttled Mock.bob = true
  /\ paused Mock.throttled = false
  /\ batchActive_at Mock.throttled 1 = true
  /\ ~ cooldown_elapsed (lastSubmissionTime_at Mock.throttled Mock.bob)
         (cooldownSeconds Mock.throttled) 2000
  /\ submitGrantApplication (Mock.at_time Mock.bob 2000) 1 50 3 Mock.throttled
     = Revert Panic_Overflow
  /\ ~ fails_with
         (submitGrantApplication (Mock.at_time Mock.bob 2000) 1 50 3
            Mock.throttled)
         Spec_CooldownActive.
Proof.
  assert (H : submitGrantApplication (Mock.at_time Mock.bob 2000) 1 50 3
                Mock.throttled = Revert Panic_Overflow)
    by (vm_compute; reflexivity).
  split; [vm_compute; reflexivity |].
  split; [vm_compute; reflexivity |].
  split; [vm_compute; reflexivity |].
  split; [| split].
  - unfold cooldown_elapsed. vm_compute. intros Hle. apply Hle. reflexivity.
  - exact H.
  - rewrite H. intros [e [He Hn]]. injection He as <-. discriminate Hn.
Qed.

(** C5, amended.  At any block time, a submission succeeds if and only if
    the batch is open, the caller is an allowlisted provider, the system is
    unpaused and the caller's cooldown has elapsed.  A failing call reports
    the first guard that fails, in the order NotProvider, PausedError,
    BatchNotActive, CooldownActive, except that the cooldown guard aborts
    with the arithmetic-overflow panic, instead of CooldownActive, when the
    caller's last submission time plus the cooldown exceeds the largest
    uint256; in every failing case the storage is unchanged.  On success the
    batch's application holds the two submitted handles and an
    uninitialized grant amount, the caller's last submission time is the
    block time, and nothing else changes. *)
Theorem submit_characterization {fhe : FHEVM} (this : address) (env : Env)
    (b : uint256) (amount score : euint32) (s : State) :
  block_timestamp env <= max_uint256 ->
  (succeeds (submitGrantApplication env b amount score s) <->
     batchActive_at s b = true
     /\ isProvider_at s (msg_sender env) = true
     /\ paused s = false
     /\ cooldown_elapsed (lastSubmissionTime_at s (msg_sender env))
          (cooldownSeconds s) (block_timestamp env))
  /\ (isProvider_at s (msg_sender env) = false ->
      submitGrantApplication env b amount score s = Revert NotProvider)
  /\ (isProvider_at s (msg_sender env) = true -> paused s = true ->
      submitGrantApplication env b amount score s = Revert PausedError)
  /\ (isProvider_at s (msg_sender env) = true -> paused s = false ->
      batchActive_at s b = false ->
      submitGrantApplication env b amount score s = Revert BatchNotActive)
  /\ (isProvider_at s (msg_sender env) = true -> paused s = false ->
      batchActive_at s b = true ->
      ~ cooldown_elapsed (lastSubmissionTime_at s (msg_sender env))
          (cooldownSeconds s) (block_timestamp env) ->
      submitGrantApplication env b amount score s
      = if max_uint256
           <? lastSubmissionTime_at s (msg_sender env) + cooldownSeconds s
        then Revert Panic_Overflow else Revert CooldownActive)
  /\ (forall e, submitGrantApplication env b amount score s = Revert e ->
      storage_after this env (SubmitGrantApplication b amount score) s = s)
  /\ (forall s' log,
        submitGrantApplication env b amount score s = Ok (s', log) ->
        s' = set_applications
               (<[b := {| encryptedAmount := amount; encryptedScore := score;
                          encryptedGrantAmount := euint32_zero |}]>
                  (applications s))
               (set_lastSubmissionTime
                  (<[msg_sender env := block_timestamp env]>
                     (lastSubmissionTime s)) s)
        /\ applications_at s' b
           = {| encryptedAmount := amount; encryptedScore := score;
                encryptedGrantAmount := euint32_zero |}
        /\ lastSubmissionTime_at s' (msg_sender env) = block_timestamp env
        /\ log = [GrantSubmitted (msg_sender env) b amount score]).
Proof.
  intros Hnow. unfold cooldown_elapsed.
  pose proof (submitGrantApplication_guards env b amount score s) as Hg.
  split; [split |
    split; [| split; [| split; [| split; [| split]]]]].
  - intros [[s' log] Hok]. rewrite Hg in Hok.
    destruct (isProvider_at s (msg_sender env)); [| discriminate].
    destruct (paused s); [discriminate |].
    destruct (batchActive_at s b); [| discriminate].
    cbn [negb] in Hok.
    destruct (Z.ltb_spec max_uint256
                (lastSubmissionTime_at s (msg_sender env) + cooldownSeconds s));
      [discriminate |].
    destruct (Z.ltb_spec (block_timestamp env)
                (lastSubmissionTime_at s (msg_sender env) + cooldownSeconds s));
      [discriminate |].
    repeat split; try reflexivity. assumption.
  - intros (Hopen & Hprov & Hrun & Hcool). rewrite Hg, Hopen, Hprov, Hrun.
    cbn [negb].
    destruct (Z.ltb_spec max_uint256
                (lastSubmissionTime_at s (msg_sender env) + cooldownSeconds s));
      [lia |].
    destruct (Z.ltb_spec (block_timestamp env)
                (lastSubmissionTime_at s (msg_sender env) + cooldownSeconds s));
      [lia |].
    by eexists.
  - intros Hprov. rewrite Hg, Hprov. reflexivity.
  - intros Hprov Hpaused. rewrite Hg, Hprov, Hpaused. reflexivity.
  - intros Hprov Hrun Hclosed. rewrite Hg, Hprov, Hrun, Hclosed. reflexivity.
  - intros Hprov Hrun Hopen Hcool. rewrite Hg, Hprov, Hrun, Hopen. cbn [negb].
    destruct (Z.ltb_spec max_uint256
                (lastSubmissionTime_at s (msg_sender env) + cooldownSeconds s));
      [reflexivity |].
    destruct (Z.ltb_spec (block_timestamp env)
                (lastSubmissionTime_at s (msg_sender env) + cooldownSeconds s));
      [reflexivity | lia].
  - intros e He. unfold storage_after. cbn [call]. rewrite He. reflexivity.
  - intros s' log Hok.
    apply submitGrantApplication_Ok_inv in Hok as [-> ->].
    split; [reflexivity |]. split; [| split; [| reflexivity]].
    + unfold applications_at. cbn [applications set_applications].
      by rewrite mapping_get_insert_eq.
    + unfold lastSubmissionTime_at.
      cbn [lastSubmissionTime set_applications set_lastSubmissionTime].
      by rewrite mapping_get_insert_eq.
Qed.

(** bob's first submission at time 1000: all four conditions hold and the
    call succeeds. *)
Lemma submit_characterization_witness :
  block_timestamp (Mock.at_time Mock.bob 1000) <= max_uint256
  /\ succeeds
       (submitGrantApplication (Mock.at_time Mock.bob 1000) 1 100 4 Mock.ready).
Proof.
  assert (Hnow : block_timestamp (Mock.at_time Mock.bob 1000) <= max_uint256)
    by (vm_compute; discriminate).
  split; [exact Hnow |].
  apply (proj1 (submit_characterization Mock.this (Mock.at_time Mock.bob 1000)
                  1 100 4 Mock.ready Hnow)).
  unfold cooldown_elapsed.
  repeat split; try (vm_compute; reflexivity).
  vm_compute. discriminate.
Defined.

(** C6, as stated, fails: with the cooldown at 60 seconds, bob allowlisted,
    batch 1 open and no submission of bob's recorded, his submission at
    time 0 reverts with CooldownActive, because the unrecorded last
    submission time reads as 0 and 0 < 0 + 60. *)
Lemma cooldown_scenario_counterexample :
  cooldownSeconds Mock.ready = 60
  /\ isProvider_at Mock.ready Mock.bob = true
  /\ paused Mock.ready = false
  /\ batchActive_at Mock.ready 1 = true
  /\ lastSubmissionTime Mock.ready !! Mock.bob = None
  /\ submitGrantApplication (Mock.at_time Mock.bob 0) 1 100 4 Mock.ready
     = Revert CooldownActive.
Proof. repeat split; vm_compute; reflexivity. Qed.

(** C6, amended.  With the cooldown at 60 seconds, a provider with no
    recorded submission who submits into an open batch at a time T of at
    least 60 succeeds (before time 60, and so at time 0, that first
    submission reverts with CooldownActive, the unrecorded last time
    reading as 0); a second submission at T + 30 reverts with
    CooldownActive; a third at T + 61 succeeds. *)
Theorem cooldown_scenario (s : State) (p : address) (b : uint256)
    (T : uint256) (env1 env2 env3 : Env) (a1 c1 a2 c2 a3 c3 : euint32) :
  cooldownSeconds s = 60 ->
  isProvider_at s p = true ->
  paused s = false ->
  batchActive_at s b = true ->
  lastSubmissionTime s !! p = None ->
  msg_sender env1 = p -> msg_sender env2 = p -> msg_sender env3 = p ->
  block_timestamp env2 = block_timestamp env1 + 30 ->
  block_timestamp env3 = block_timestamp env1 + 61 ->
  block_timestamp env1 = T ->
  0 <= T -> T + 61 <= max_uint256 ->
  (T < 60 ->
   submitGrantApplication env1 b a1 c1 s = Revert CooldownActive)
  /\ (60 <= T ->
      exists s1 log1,
        submitGrantApplication env1 b a1 c1 s = Ok (s1, log1)
        /\ submitGrantApplication env2 b a2 c2 s1 = Revert CooldownActive
        /\ succeeds (submitGrantApplication env3 b a3 c3 s1)).
Proof.
  intros Hcd Hprov Hrun Hopen Hnone Hs1 Hs2 Hs3 Ht2 Ht3 Ht1 HT0 HTmax.
  assert (Hlast : lastSubmissionTime_at s p = 0).
  { unfold lastSubmissionTime_at, mapping_get. rewrite Hnone. reflexivity. }
  assert (Hmax : max_uint256 = 2 ^ 256 - 1) by reflexivity.
  split.
  - intros Hearly. rewrite submitGrantApplication_guards.
    rewrite Hs1, Hprov, Hrun, Hopen, Hlast, Hcd, Ht1. cbn [negb].
    destruct (Z.ltb_spec max_uint256 (0 + 60)); [lia |].
    destruct (Z.ltb_spec T (0 + 60)); [reflexivity | lia].
  - intros Hlate.
    eexists; eexists. split; [| split].
    + rewrite submitGrantApplication_guards.
      rewrite Hs1, Hprov, Hrun, Hopen, Hlast, Hcd, Ht1. cbn [negb].
      destruct (Z.ltb_spec max_uint256 (0 + 60)); [lia |].
      destruct (Z.ltb_spec T (0 + 60)); [lia | reflexivity].
    + rewrite submitGrantApplication_guards.
      unfold isProvider_at, batchActive_at, lastSubmissionTime_at.
      cbn [isProvider paused batchActive cooldownSeconds lastSubmissionTime
           set_applications set_lastSubmissionTime].
      fold (isProvider_at s (msg_sender env2)). fold (batchActive_at s b).
      rewrite Hs2, Hprov, Hrun, Hopen, Hcd, Ht2, Ht1.
      rewrite mapping_get_insert_eq. cbn [negb].
      destruct (Z.ltb_spec max_uint256 (T + 60)); [lia |].
      destruct (Z.ltb_spec (T + 30) (T + 60)); [reflexivity | lia].
    + rewrite submitGrantApplication_guards.
      unfold isProvider_at, batchActive_at, lastSubmissionTime_at.
      cbn [isProvider paused batchActive cooldownSeconds lastSubmissionTime
           set_applications set_lastSubmissionTime].
      fold (isProvider_at s (msg_sender env3)). fold (batchActive_at s b).
      rewrite Hs3, Hprov, Hrun, Hopen, Hcd, Ht3, Ht1.
      rewrite mapping_get_insert_eq. cbn [negb].
      destruct (Z.ltb_spec max_uint256 (T + 60)); [lia |].
      destruct (Z.ltb_spec (T + 61) (T + 60)); [lia |].
      by eexists.
Qed.

(** bob, with no submission recorded, submits at times 1000, 1030 and
    1061. *)
Lemma cooldown_scenario_witness :
  cooldownSeconds Mock.ready = 60
  /\ lastSubmissionTime Mock.ready !! Mock.bob = None
  /\ exists s1 log1,
       submitGrantApplication (Mock.at_time Mock.bob 1000) 1 100 4 Mock.ready
       = Ok (s1, log1)
       /\ submitGrantApplication (Mock.at_time Mock.bob 1030) 1 100 4 s1
          = Revert CooldownActive
       /\ succeeds
            (submitGrantApplication (Mock.at_time Mock.bob 1061) 1 100 4 s1).
Proof.
  assert (Hcd : cooldownSeconds Mock.ready = 60) by reflexivity.
  assert (Hnone : lastSubmissionTime Mock.ready !! Mock.bob = None)
    by (vm_compute; reflexivity).
  split; [exact Hcd |]. split; [exact Hnone |].
  refine (proj2 (cooldown_scenario Mock.ready Mock.bob 1 1000
            (Mock.at_time Mock.bob 1000) (Mock.at_time Mock.bob 1030)
            (Mock.at_time Mock.bob 1061) 100 4 100 4 100 4
            Hcd _ _ _ Hnone _ _ _ _ _ _ _ _) _).
  all: try (vm_compute; reflexivity).
  all: vm_compute; discriminate.
Defined.

(** ** The order of the callback's checks *)

(** C7. Callback check ordering: a processed context makes the callback
    revert with ReplayAttempt even when the hash also mismatches or the
    proof is invalid; an unprocessed context whose recomputed hash differs
    from the stored one makes it revert with StateMismatch; in both cases
    the outcome is the same for every cleartext and proof and for every
    signature verifier, which is therefore not consulted; only when both
    checks pass does a failing verification surface, as DecryptionFailed. *)
Theorem callback_check_order {fhe : FHEVM} (this : address) (env : Env)
    (r : uint256) (s : State) :
  (processed (decryptionContexts_at s r) = true ->
   forall verifier cleartexts proof,
     @myCallback (with_verifier fhe verifier) this env r cleartexts proof s
     = Revert ReplayAttempt)
  /\ (processed (decryptionContexts_at s r) = false ->
      commitment this
        (encryptedGrantAmount
           (applications_at s (batchId (decryptionContexts_at s r))))
      <> stateHash (decryptionContexts_at s r) ->
      forall verifier cleartexts proof,
        @myCallback (with_verifier fhe verifier) this env r cleartexts proof s
        = Revert StateMismatch)
  /\ (processed (decryptionContexts_at s r) = false ->
      commitment this
        (encryptedGrantAmount
           (applications_at s (batchId (decryptionContexts_at s r))))
      = stateHash (decryptionContexts_at s r) ->
      forall cleartexts proof,
        checkSignatures r cleartexts proof = false ->
        myCallback this env r cleartexts proof s = Revert DecryptionFailed).
Proof.
  split; [| split].
  - intros Hp verifier cleartexts proof.
    exact (@myCallback_processed (with_verifier fhe verifier) this env r
             cleartexts proof s Hp).
  - intros Hp Hh verifier cleartexts proof.
    exact (@myCallback_stale (with_verifier fhe verifier) this env r
             cleartexts proof s Hp Hh).
  - intros Hp Hh cleartexts proof Hv.
    exact (myCallback_bad_proof this env r cleartexts proof s Hp Hh Hv).
Qed.

(** Request 7 once finalized (and, bob having submitted again, stale as
    well) answers ReplayAttempt to a callback with an invalid proof; the
    never-finalized request 7 of a state whose batch was resubmitted answers
    StateMismatch to a callback with a valid one. *)
Lemma callback_check_order_witness :
  myCallback Mock.this (Mock.at_time Mock.carol 2500) 7
    (Mock.word x2a) (Mock.word x00)
    (run Mock.this
       [(Mock.at_time Mock.bob 2200, SubmitGrantApplication 1 50 3)]
       Mock.finalized)
  = Revert ReplayAttempt
  /\ myCallback Mock.this (Mock.at_time Mock.carol 2500) 7
       (Mock.word x2a) (Mock.word x2a)
       (run Mock.this
          [(Mock.at_time Mock.bob 2200, SubmitGrantApplication 1 50 3)]
          Mock.requested)
     = Revert StateMismatch.
Proof.
  split.
  - refine (proj1 (callback_check_order Mock.this
                     (Mock.at_time Mock.carol 2500) 7 _) _
                  (@checkSignatures Mock.fhevm) _ _).
    vm_compute; reflexivity.
  - refine (proj1 (proj2 (callback_check_order Mock.this
                     (Mock.at_time Mock.carol 2500) 7 _)) _ _
                  (@checkSignatures Mock.fhevm) _ _).
    + vm_compute; reflexivity.
    + vm_compute. discriminate.
Defined.

(** ** Administration while paused *)

(** C8, as stated, fails: in the paused system the owner's own call of
    pause reverts with PausedError. *)
Lemma paused_administration_counterexample :
  paused Mock.halted = true
  /\ msg_sender (Mock.at_time Mock.alice 3000) = owner Mock.halted
  /\ pause (Mock.at_time Mock.alice 3000) Mock.halted = Revert PausedError
  /\ ~ succeeds (pause (Mock.at_time Mock.alice 3000) Mock.halted).
Proof.
  assert (H : pause (Mock.at_time Mock.alice 3000) Mock.halted
              = Revert PausedError) by (vm_compute; reflexivity).
  split; [vm_compute; reflexivity |].
  split; [vm_compute; reflexivity |].
  split; [exact H |].
  rewrite H. intros [a Ha]. discriminate Ha.
Qed.

(** C8, amended.  While the system is paused, the owner's transfer of
    ownership, addition and removal of a provider, unpause and change of
    cooldown all succeed; opening and closing a batch are not gated by the
    pause flag and succeed exactly when the batch is closed, respectively
    open; pause itself reverts with PausedError, as do the owner's
    decryption request and a provider's submission. *)
Theorem paused_administration {fhe : FHEVM} (this : address) (env : Env)
    (s : State) :
  paused s = true ->
  msg_sender env = owner s ->
  (forall newOwner, succeeds (transferOwnership env newOwner s))
  /\ (forall provider, succeeds (addProvider env provider s))
  /\ (forall provider, succeeds (removeProvider env provider s))
  /\ succeeds (unpause env s)
  /\ (forall n, succeeds (setCooldownSeconds env n s))
  /\ (forall b, batchActive_at s b = false -> succeeds (openBatch env b s))
  /\ (forall b, batchActive_at s b = true ->
        openBatch env b s = Revert BatchAlreadyActive)
  /\ (forall b, batchActive_at s b = true -> succeeds (closeBatch env b s))
  /\ (forall b, batchActive_at s b = false ->
        closeBatch env b s = Revert BatchNotActive)
  /\ pause env s = Revert PausedError
  /\ (forall b,
        calculateAndRequestGrantAmountDecryption this env b s
        = Revert PausedError)
  /\ (forall env' b amount score,
        isProvider_at s (msg_sender env') = true ->
        submitGrantApplication env' b amount score s = Revert PausedError).
Proof.
  intros Hpaused Hown.
  assert (Ho : onlyOwner env s = Ok tt).
  { unfold onlyOwner. rewrite Hown, Z.eqb_refl. reflexivity. }
  repeat apply conj.
  - intros newOwner. unfold transferOwnership. rewrite Ho. by eexists.
  - intros provider. unfold addProvider. rewrite Ho. cbn.
    destruct (isProvider_at s provider); by eexists.
  - intros provider. unfold removeProvider. rewrite Ho. cbn.
    destruct (isProvider_at s provider); by eexists.
  - unfold unpause. rewrite Ho, Hpaused. by eexists.
  - intros n. unfold setCooldownSeconds. rewrite Ho. by eexists.
  - intros b Hb. unfold openBatch. rewrite Ho, Hb. by eexists.
  - intros b Hb. unfold openBatch. rewrite Ho, Hb. reflexivity.
  - intros b Hb. unfold closeBatch. rewrite Ho, Hb. by eexists.
  - intros b Hb. unfold closeBatch. rewrite Ho, Hb. reflexivity.
  - unfold pause, whenNotPaused. rewrite Ho, Hpaused. reflexivity.
  - intros b. unfold calculateAndRequestGrantAmountDecryption, whenNotPaused.
    rewrite Ho, Hpaused. reflexivity.
  - intros env' b amount score Hprov.
    rewrite submitGrantApplication_guards, Hprov, Hpaused. reflexivity.
Qed.

(** In the paused system alice can still open the closed batch 2, and
    unpause. *)
Lemma paused_administration_witness :
  paused Mock.halted = true
  /\ msg_sender (Mock.at_time Mock.alice 3000) = owner Mock.halted
  /\ succeeds (openBatch (Mock.at_time Mock.alice 3000) 2 Mock.halted)
  /\ succeeds (unpause (Mock.at_time Mock.alice 3000) Mock.halted).
Proof.
  assert (Hpaused : paused Mock.halted = true) by (vm_compute; reflexivity).
  assert (Hown : msg_sender (Mock.at_time Mock.alice 3000) = owner Mock.halted)
    by (vm_compute; reflexivity).
  split; [exact Hpaused |]. split; [exact Hown |].
  pose proof (paused_administration Mock.this (Mock.at_time Mock.alice 3000)
                Mock.halted Hpaused Hown) as H.
  split.
  - apply H. vm_compute; reflexivity.
  - apply H.
Defined.

(** ** Who may deliver the callback, and what it touches *)

(** C9. Caller-independence of the callback: from equal states and with
    equal arguments, the callback's outcome and resulting state are the
    same whoever calls it and whenever; in particular any address
    finalizes a request whose context is unprocessed, whose hash still
    matches and whose proof verifies for a decodable cleartext. *)
Theorem callback_caller_independent {fhe : FHEVM} (this : address)
    (env1 env2 : Env) (r : uint256) (cleartexts proof : bytes) (s : State) :
  call this env1 (MyCallback r cleartexts proof) s
  = call this env2 (MyCallback r cleartexts proof) s
  /\ storage_after this env1 (MyCallback r cleartexts proof) s
     = storage_after this env2 (MyCallback r cleartexts proof) s
  /\ (processed (decryptionContexts_at s r) = false ->
      commitment this
        (encryptedGrantAmount
           (applications_at s (batchId (decryptionContexts_at s r))))
      = stateHash (decryptionContexts_at s r) ->
      checkSignatures r cleartexts proof = true ->
      (32 <= length cleartexts)%nat ->
      succeeds (call this env1 (MyCallback r cleartexts proof) s)
      /\ processed
           (decryptionContexts_at
              (storage_after this env1 (MyCallback r cleartexts proof) s) r)
         = true).
Proof.
  split; [reflexivity |]. split; [reflexivity |].
  intros Hp Hh Hv Hlen.
  destruct (abi_decode_uint256_long cleartexts Hlen) as [amount Hd].
  pose proof (myCallback_accepts this env1 r cleartexts proof s amount
                Hp Hh Hv Hd) as Hok.
  split.
  - cbn [call]. rewrite Hok. by eexists.
  - unfold storage_after. cbn [call]. rewrite Hok.
    unfold decryptionContexts_at.
    cbn [decryptionContexts set_decryptionContexts].
    by rewrite mapping_get_insert_eq.
Qed.

(** carol, who is neither the owner nor a provider nor the bridge, delivers
    the answer to request 7 and finalizes it, exactly as alice would. *)
Lemma callback_caller_independent_witness :
  call Mock.this (Mock.at_time Mock.carol 2100)
    (MyCallback 7 (Mock.word x2a) (Mock.word x2a)) Mock.requested
  = call Mock.this (Mock.at_time Mock.alice 2000)
      (MyCallback 7 (Mock.word x2a) (Mock.word x2a)) Mock.requested
  /\ succeeds
       (call Mock.this (Mock.at_time Mock.carol 2100)
          (MyCallback 7 (Mock.word x2a) (Mock.word x2a)) Mock.requested).
Proof.
  pose proof (callback_caller_independent Mock.this
                (Mock.at_time Mock.carol 2100) (Mock.at_time Mock.alice 2000)
                7 (Mock.word x2a) (Mock.word x2a) Mock.requested)
    as [Hsame [_ Hany]].
  split; [exact Hsame |].
  apply Hany.
  - vm_compute; reflexivity.
  - vm_compute; reflexivity.
  - vm_compute; reflexivity.
  - vm_compute. apply le_n.
Defined.

(** C10. Callback frame: an accepted callback sets the processed flag of
    its request's context, keeping that context's batch id and hash, and
    emits one DecryptionCompleted record; the owner, the provider
    allowlist, the pause flag, the cooldown, the batches' states, the
    applications, both tables of last-action times and every other
    decryption context are unchanged. *)
Theorem callback_frame {fhe : FHEVM} (this : address) (env : Env)
    (r : uint256) (cleartexts proof : bytes) (s s' : State)
    (log : list Event) :
  myCallback this env r cleartexts proof s = Ok (s', log) ->
  owner s' = owner s
  /\ isProvider s' = isProvider s
  /\ paused s' = paused s
  /\ cooldownSeconds s' = cooldownSeconds s
  /\ batchActive s' = batchActive s
  /\ applications s' = applications s
  /\ lastSubmissionTime s' = lastSubmissionTime s
  /\ lastDecryptionRequestTime s' = lastDecryptionRequestTime s
  /\ batchTotalEncryptedAmount s' = batchTotalEncryptedAmount s
  /\ batchTotalEncryptedScore s' = batchTotalEncryptedScore s
  /\ (forall r', r' <> r ->
        decryptionContexts s' !! r' = decryptionContexts s !! r')
  /\ processed (decryptionContexts_at s r) = false
  /\ decryptionContexts_at s' r
     = {| batchId := batchId (decryptionContexts_at s r);
          stateHash := stateHash (decryptionContexts_at s r);
          processed := true |}
  /\ exists amount,
       abi_decode_uint256 cleartexts = Ok amount
       /\ log = [DecryptionCompleted r (batchId (decryptionContexts_at s r))
                   0 0 amount].
Proof.
  intros Hok.
  destruct (myCallback_Ok_inv this env r cleartexts proof s s' log Hok)
    as (Hp & Hh & Hv & amount & Hd).
  rewrite (myCallback_accepts this env r cleartexts proof s amount
             Hp Hh Hv Hd) in Hok.
  injection Hok as <- <-.
  repeat apply conj; try reflexivity.
  - intros r' Hne. cbn [decryptionContexts set_decryptionContexts].
    by rewrite lookup_insert_ne.
  - exact Hp.
  - unfold decryptionContexts_at at 1.
    cbn [decryptionContexts set_decryptionContexts].
    by rewrite mapping_get_insert_eq.
  - exists amount. split; [exact Hd | reflexivity].
Qed.

(** The accepted callback of request 7 (cleartext 42) leaves batch 1's
    application and the owner as they were and logs the disclosure. *)
Lemma callback_frame_witness :
  myCallback Mock.this (Mock.at_time Mock.carol 2100) 7
    (Mock.word x2a) (Mock.word x2a) Mock.requested
  = Ok (Mock.finalized, [DecryptionCompleted 7 1 0 0 42])
  /\ applications Mock.finalized = applications Mock.requested
  /\ owner Mock.finalized = owner Mock.requested
  /\ processed (decryptionContexts_at Mock.finalized 7) = true.
Proof.
  assert (Hok : myCallback Mock.this (Mock.at_time Mock.carol 2100) 7
                  (Mock.word x2a) (Mock.word x2a) Mock.requested
                = Ok (Mock.finalized, [DecryptionCompleted 7 1 0 0 42]))
    by (vm_compute; reflexivity).
  split; [exact Hok |].
  pose proof (callback_frame Mock.this (Mock.at_time Mock.carol 2100) 7
                (Mock.word x2a) (Mock.word x2a) Mock.requested Mock.finalized
                _ Hok) as H.
  destruct H as (Ho & _ & _ & _ & _ & Ha & _ & _ & _ & _ & _ & _ & Hc & _).
  split; [exact Ha |]. split; [exact Ho |].
  rewrite Hc. reflexivity.
Defined.

(** * Further properties of the contract *)

(** ** Shared facts *)

Lemma storage_after_Revert {fhe : FHEVM} (this : address) (env : Env)
    (c : Call) (s : State) (e : Error) :
  call this env c s = Revert e -> storage_after this env c s = s.
Proof. intros H. unfold storage_after. rewrite H. reflexivity. Qed.

Lemma storage_after_Ok {fhe : FHEVM} (this : address) (env : Env)
    (c : Call) (s s' : State) (log : list Event) :
  call this env c s = Ok (s', log) -> storage_after this env c s = s'.
Proof. intros H. unfold storage_after. rewrite H. reflexivity. Qed.

Lemma onlyOwner_owner (env : Env) (s : State) :
  msg_sender env = owner s -> onlyOwner env s = Ok tt.
Proof. intros H. unfold onlyOwner. rewrite H, Z.eqb_refl. reflexivity. Qed.

Lemma onlyOwner_other (env : Env) (s : State) :
  msg_sender env <> owner s -> onlyOwner env s = Revert NotOwner.
Proof.
  intros H. unfold onlyOwner.
  destruct (Z.eqb_spec (msg_sender env) (owner s)); [contradiction |].
  reflexivity.
Qed.

(** The guards of a disclosure request, in the order the contract
    evaluates them. *)
Lemma calculateAndRequestGrantAmountDecryption_guards {fhe : FHEVM}
    (this : address) (env : Env) (b : uint256) (s : State) :
  calculateAndRequestGrantAmountDecryption this env b s
  = if negb (msg_sender env =? owner s) then Revert NotOwner
    else if paused s then Revert PausedError
    else if max_uint256
            <? lastDecryptionRequestTime_at s (msg_sender env)
               + cooldownSeconds s
    then Revert Panic_Overflow
    else if block_timestamp env
            <? lastDecryptionRequestTime_at s (msg_sender env)
               + cooldownSeconds s
    then Revert CooldownActive
    else if negb (FHE_isInitialized (encryptedAmount (applications_at s b)))
    then Revert InvalidBatch
    else if negb (FHE_isInitialized (encryptedScore (applications_at s b)))
    then Revert InvalidBatch
    else Ok (requested_storage this env b s,
             [DecryptionRequested (bridge_requestId env) b
                (commitment this
                   (fheMul (encryptedAmount (applications_at s b))
                           (encryptedScore (applications_at s b))))]).
Proof.
  unfold calculateAndRequestGrantAmountDecryption, onlyOwner, whenNotPaused,
    checked_add.
  destruct (msg_sender env =? owner s); cbn; [| reflexivity].
  destruct (paused s); cbn; [reflexivity |].
  destruct (Z.leb_spec
              (lastDecryptionRequestTime_at s (msg_sender env)
               + cooldownSeconds s) max_uint256) as [Hfit | Hover];
    destruct (Z.ltb_spec max_uint256
                (lastDecryptionRequestTime_at s (msg_sender env)
                 + cooldownSeconds s)) as [Hover' | Hfit'];
    try lia; cbn; [| reflexivity].
  destruct (block_timestamp env
              <? lastDecryptionRequestTime_at s (msg_sender env)
                 + cooldownSeconds s); cbn; [reflexivity |].
  change (applications_at (set_lastDecryptionRequestTime _ s) b)
    with (applications_at s b).
  destruct (FHE_isInitialized (encryptedAmount (applications_at s b)));
    cbn; [| reflexivity].
  destruct (FHE_isInitialized (encryptedScore (applications_at s b)));
    cbn; reflexivity.
Qed.

(** ** Access control *)

Lemma owner_only_refused {fhe : FHEVM} (this : address) (env : Env)
    (c : Call) (s : State) :
  msg_sender env <> owner s ->
  owner_only c = true ->
  call this env c s = Revert NotOwner.
Proof.
  intros Hother Hadmin.
  pose proof (onlyOwner_other env s Hother) as Ho.
  destruct c; try discriminate Hadmin; cbn [call];
    unfold transferOwnership, addProvider, removeProvider, pause, unpause,
      setCooldownSeconds, openBatch, closeBatch,
      calculateAndRequestGrantAmountDecryption;
    rewrite Ho; reflexivity.
Qed.

(** X1. Every call that carries [onlyOwner] reverts with NotOwner when the
    caller is not the owner, whatever else is wrong with the call, and
    changes nothing. *)
Theorem only_owner_administers {fhe : FHEVM} (this : address) (env : Env)
    (c : Call) (s : State) :
  msg_sender env <> owner s ->
  owner_only c = true ->
  call this env c s = Revert NotOwner
  /\ storage_after this env c s = s.
Proof.
  intros Hother Hadmin.
  pose proof (owner_only_refused this env c s Hother Hadmin) as H.
  split; [exact H |]. exact (storage_after_Revert this env c s _ H).
Qed.

(** bob is allowlisted but not the owner: his attempt to transfer the
    ownership to himself is refused. *)
Lemma only_owner_administers_witness :
  msg_sender (Mock.at_time Mock.bob 1200) <> owner Mock.ready
  /\ call Mock.this (Mock.at_time Mock.bob 1200) (TransferOwnership Mock.bob)
       Mock.ready = Revert NotOwner.
Proof.
  assert (Hother : msg_sender (Mock.at_time Mock.bob 1200) <> owner Mock.ready)
    by (vm_compute; discriminate).
  split; [exact Hother |].
  apply (only_owner_administers Mock.this (Mock.at_time Mock.bob 1200)
           (TransferOwnership Mock.bob) Mock.ready Hother).
  reflexivity.
Defined.

(** X2. A caller who is neither the owner nor an allowlisted provider can
    only deliver callbacks: each of the owner's calls reverts with NotOwner
    and a submission reverts with NotProvider. *)
Theorem outsider_only_delivers_callbacks {fhe : FHEVM} (this : address)
    (env : Env) (c : Call) (s : State) :
  msg_sender env <> owner s ->
  isProvider_at s (msg_sender env) = false ->
  (forall r cleartexts proof, c <> MyCallback r cleartexts proof) ->
  call this env c s
  = Revert (if owner_only c then NotOwner else NotProvider).
Proof.
  intros Hother Hout Hcb.
  destruct (owner_only c) eqn:Hadmin.
  - exact (owner_only_refused this env c s Hother Hadmin).
  - destruct c; try discriminate Hadmin; cbn [call].
    + rewrite submitGrantApplication_guards, Hout. reflexivity.
    + exfalso. exact (Hcb _ _ _ eq_refl).
Qed.

Lemma outsider_only_delivers_callbacks_witness :
  msg_sender (Mock.at_time Mock.carol 1200) <> owner Mock.ready
  /\ isProvider_at Mock.ready Mock.carol = false
  /\ call Mock.this (Mock.at_time Mock.carol 1200)
       (SubmitGrantApplication 1 100 4) Mock.ready = Revert NotProvider.
Proof.
  assert (Hother : msg_sender (Mock.at_time Mock.carol 1200)
                   <> owner Mock.ready) by (vm_compute; discriminate).
  assert (Hout : isProvider_at Mock.ready
                   (msg_sender (Mock.at_time Mock.carol 1200)) = false)
    by (vm_compute; reflexivity).
  split; [exact Hother |]. split; [exact Hout |].
  apply (outsider_only_delivers_callbacks Mock.this
           (Mock.at_time Mock.carol 1200) (SubmitGrantApplication 1 100 4)
           Mock.ready Hother Hout).
  intros r cleartexts proof H. discriminate H.
Defined.

(** X3. No call of a non-owner, successful or not, changes the owner, the
    provider allowlist, the pause flag, the cooldown, any batch's state or
    the table of last request times. *)
Theorem non_owner_leaves_administration {fhe : FHEVM} (this : address)
    (env : Env) (c : Call) (s : State) :
  msg_sender env <> owner s ->
  same_administration s (storage_after this env c s).
Proof.
  intros Hother.
  destruct (owner_only c) eqn:Hadmin.
  - rewrite (storage_after_Revert this env c s _
               (owner_only_refused this env c s Hother Hadmin)).
    repeat split.
  - destruct c; try discriminate Hadmin; unfold storage_after; cbn [call].
    + destruct (submitGrantApplication env b amount score s)
        as [e | [s' log]] eqn:Hsub; [repeat split |].
      apply submitGrantApplication_Ok_inv in Hsub as [-> _]. repeat split.
    + destruct (myCallback this env requestId cleartexts proof s)
        as [e | [s' log]] eqn:Hcb; [repeat split |].
      destruct (myCallback_Ok_inv this env requestId cleartexts proof s s' log
                  Hcb) as (Hp & Hm & Hv & amount & Hd).
      rewrite (myCallback_accepts this env requestId cleartexts proof s amount
                 Hp Hm Hv Hd) in Hcb.
      injection Hcb as <- _. repeat split.
Qed.

(** bob's accepted submission leaves the administration as it was. *)
Lemma non_owner_leaves_administration_witness :
  msg_sender (Mock.at_time Mock.bob 1000) <> owner Mock.ready
  /\ same_administration Mock.ready Mock.submitted.
Proof.
  assert (Hother : msg_sender (Mock.at_time Mock.bob 1000) <> owner Mock.ready)
    by (vm_compute; discriminate).
  split; [exact Hother |].
  exact (non_owner_leaves_administration Mock.this
           (Mock.at_time Mock.bob 1000) (SubmitGrantApplication 1 100 4)
           Mock.ready Hother).
Defined.

(** ** The provider allowlist *)

(** X4. The owner's addProvider always succeeds and leaves the address
    allowlisted and every other address as it was; a repeated addProvider
    changes nothing and emits no record. *)
Theorem addProvider_idempotent (env : Env) (p : address) (s : State) :
  msg_sender env = owner s ->
  exists s1 log1,
    addProvider env p s = Ok (s1, log1)
    /\ isProvider_at s1 p = true
    /\ (forall q, q <> p -> isProvider_at s1 q = isProvider_at s q)
    /\ (isProvider_at s p = false -> log1 = [ProviderAdded p])
    /\ (isProvider_at s p = true -> s1 = s /\ log1 = [])
    /\ forall env', msg_sender env' = owner s ->
         addProvider env' p s1 = Ok (s1, []).
Proof.
  intros Hown. unfold addProvider. rewrite (onlyOwner_owner env s Hown).
  cbn [mbind Result_bind].
  destruct (isProvider_at s p) eqn:Hp; cbn [negb].
  - exists s, []. repeat apply conj; try reflexivity; try assumption.
    + discriminate.
    + intros _. split; reflexivity.
    + intros env' Hown'. rewrite (onlyOwner_owner env' s Hown'), Hp.
      reflexivity.
  - eexists; eexists. split; [reflexivity |].
    assert (Hin : isProvider_at
                    (set_isProvider (<[p:=true]> (isProvider s)) s) p = true).
    { unfold isProvider_at. cbn [isProvider set_isProvider].
      by rewrite mapping_get_insert_eq. }
    repeat apply conj.
    + exact Hin.
    + intros q Hq. unfold isProvider_at. cbn [isProvider set_isProvider].
      by rewrite mapping_get_insert_ne.
    + reflexivity.
    + discriminate.
    + intros env' Hown'.
      assert (Ho : onlyOwner env'
                     (set_isProvider (<[p:=true]> (isProvider s)) s) = Ok tt)
        by (apply onlyOwner_owner; exact Hown').
      rewrite Ho, Hin. reflexivity.
Qed.

(** alice allowlists carol; doing so again is a no-op. *)
Lemma addProvider_idempotent_witness :
  msg_sender (Mock.at_time Mock.alice 1100) = owner Mock.ready
  /\ exists s1,
       addProvider (Mock.at_time Mock.alice 1100) Mock.carol Mock.ready
       = Ok (s1, [ProviderAdded Mock.carol])
       /\ addProvider (Mock.at_time Mock.alice 1200) Mock.carol s1
          = Ok (s1, []).
Proof.
  assert (Hown : msg_sender (Mock.at_time Mock.alice 1100) = owner Mock.ready)
    by reflexivity.
  split; [exact Hown |].
  destruct (addProvider_idempotent (Mock.at_time Mock.alice 1100) Mock.carol
              Mock.ready Hown)
    as (s1 & log1 & Hadd & _ & _ & Hlog & _ & Hagain).
  exists s1. split.
  - rewrite Hadd, Hlog; [reflexivity | vm_compute; reflexivity].
  - apply Hagain. reflexivity.
Defined.

(** X5. The owner's removeProvider always succeeds and leaves the address
    off the allowlist and every other address as it was; a repeated
    removeProvider changes nothing and emits no record; and a removed
    provider's submissions revert with NotProvider. *)
Theorem removeProvider_idempotent (env : Env) (p : address) (s : State) :
  msg_sender env = owner s ->
  exists s1 log1,
    removeProvider env p s = Ok (s1, log1)
    /\ isProvider_at s1 p = false
    /\ (forall q, q <> p -> isProvider_at s1 q = isProvider_at s q)
    /\ (isProvider_at s p = true -> log1 = [ProviderRemoved p])
    /\ (isProvider_at s p = false -> s1 = s /\ log1 = [])
    /\ (forall env', msg_sender env' = owner s ->
          removeProvider env' p s1 = Ok (s1, []))
    /\ forall env' b amount score, msg_sender env' = p ->
         submitGrantApplication env' b amount score s1 = Revert NotProvider.
Proof.
  intros Hown. unfold removeProvider. rewrite (onlyOwner_owner env s Hown).
  cbn [mbind Result_bind].
  destruct (isProvider_at s p) eqn:Hp.
  - eexists; eexists. split; [reflexivity |].
    assert (Hout : isProvider_at
                     (set_isProvider (<[p:=false]> (isProvider s)) s) p
                   = false).
    { unfold isProvider_at. cbn [isProvider set_isProvider].
      by rewrite mapping_get_insert_eq. }
    repeat apply conj.
    + exact Hout.
    + intros q Hq. unfold isProvider_at. cbn [isProvider set_isProvider].
      by rewrite mapping_get_insert_ne.
    + reflexivity.
    + discriminate.
    + intros env' Hown'.
      assert (Ho : onlyOwner env'
                     (set_isProvider (<[p:=false]> (isProvider s)) s) = Ok tt)
        by (apply onlyOwner_owner; exact Hown').
      rewrite Ho, Hout. reflexivity.
    + intros env' b amount score Hp'.
      rewrite submitGrantApplication_guards, Hp', Hout. reflexivity.
  - exists s, []. repeat apply conj; try reflexivity; try assumption.
    + discriminate.
    + intros _. split; reflexivity.
    + intros env' Hown'. rewrite (onlyOwner_owner env' s Hown'), Hp.
      reflexivity.
    + intros env' b amount score Hp'.
      rewrite submitGrantApplication_guards, Hp', Hp. reflexivity.
Qed.

(** alice removes bob, whose next submission is refused. *)
Lemma removeProvider_idempotent_witness :
  msg_sender (Mock.at_time Mock.alice 1100) = owner Mock.ready
  /\ exists s1,
       removeProvider (Mock.at_time Mock.alice 1100) Mock.bob Mock.ready
       = Ok (s1, [ProviderRemoved Mock.bob])
       /\ submitGrantApplication (Mock.at_time Mock.bob 1200) 1 100 4 s1
          = Revert NotProvider.
Proof.
  assert (Hown : msg_sender (Mock.at_time Mock.alice 1100) = owner Mock.ready)
    by reflexivity.
  split; [exact Hown |].
  destruct (removeProvider_idempotent (Mock.at_time Mock.alice 1100) Mock.bob
              Mock.ready Hown)
    as (s1 & log1 & Hrem & _ & _ & Hlog & _ & _ & Hsub).
  exists s1. split.
  - rewrite Hrem, Hlog; [reflexivity | vm_compute; reflexivity].
  - apply Hsub. reflexivity.
Defined.

(** ** Ownership *)

(** X6. Transferring the ownership succeeds for the owner and moves
    administration as a whole: the new owner passes [onlyOwner], the
    previous owner (if another address) is refused every owner-only call,
    and the provider allowlist is untouched, so the previous owner keeps
    the allowlisting the constructor gave it and the new owner gains
    none. *)
Theorem transferOwnership_moves_administration {fhe : FHEVM} (this : address)
    (env : Env) (newOwner : address) (s : State) :
  msg_sender env = owner s ->
  exists s1,
    transferOwnership env newOwner s
    = Ok (s1, [OwnershipTransferred (owner s) newOwner])
    /\ owner s1 = newOwner
    /\ isProvider s1 = isProvider s
    /\ (forall env', msg_sender env' = newOwner -> onlyOwner env' s1 = Ok tt)
    /\ (newOwner <> owner s ->
        forall env' c, msg_sender env' = owner s -> owner_only c = true ->
          call this env' c s1 = Revert NotOwner).
Proof.
  intros Hown. unfold transferOwnership.
  rewrite (onlyOwner_owner env s Hown). cbn [mbind Result_bind].
  eexists. split; [reflexivity |].
  repeat apply conj; try reflexivity.
  - intros env' Hnew. apply onlyOwner_owner. exact Hnew.
  - intros Hne env' c Hold Hadmin.
    apply owner_only_refused; [| exact Hadmin].
    cbn [owner set_owner]. rewrite Hold. intros Heq. apply Hne.
    symmetry. exact Heq.
Qed.

(** alice hands the contract to carol and can no longer pause it. *)
Lemma transferOwnership_moves_administration_witness :
  msg_sender (Mock.at_time Mock.alice 1100) = owner Mock.ready
  /\ exists s1,
       transferOwnership (Mock.at_time Mock.alice 1100) Mock.carol Mock.ready
       = Ok (s1, [OwnershipTransferred Mock.alice Mock.carol])
       /\ call Mock.this (Mock.at_time Mock.alice 1200) Pause s1
          = Revert NotOwner
       /\ isProvider_at s1 Mock.alice = true
       /\ isProvider_at s1 Mock.carol = false.
Proof.
  assert (Hown : msg_sender (Mock.at_time Mock.alice 1100) = owner Mock.ready)
    by reflexivity.
  split; [exact Hown |].
  destruct (transferOwnership_moves_administration Mock.this
              (Mock.at_time Mock.alice 1100) Mock.carol Mock.ready Hown)
    as (s1 & Htr & _ & Hprov & _ & Hold).
  exists s1. split; [exact Htr |]. split.
  - apply Hold; [vm_compute; discriminate | reflexivity | reflexivity].
  - unfold isProvider_at. rewrite Hprov. split; vm_compute; reflexivity.
Defined.

(** ** Pausing *)

(** X7. Pause and unpause are inverse: in an unpaused system the owner's
    pause succeeds, a following unpause succeeds and restores the storage
    exactly, and an unpause without a preceding pause reverts with
    PausedError. *)
Theorem pause_unpause_round_trip (env env' : Env) (s : State) :
  msg_sender env = owner s ->
  msg_sender env' = owner s ->
  paused s = false ->
  unpause env s = Revert PausedError
  /\ exists s1,
       pause env s = Ok (s1, [Paused (msg_sender env)])
       /\ paused s1 = true
       /\ unpause env' s1 = Ok (s, [Unpaused (msg_sender env')]).
Proof.
  intros Hown Hown' Hrun. split.
  - unfold unpause. rewrite (onlyOwner_owner env s Hown), Hrun. reflexivity.
  - unfold pause, whenNotPaused.
    rewrite (onlyOwner_owner env s Hown), Hrun. cbn.
    eexists. split; [reflexivity |]. split; [reflexivity |].
    unfold unpause.
    assert (Ho : onlyOwner env' (set_paused true s) = Ok tt)
      by (apply onlyOwner_owner; exact Hown').
    rewrite Ho. cbn.
    destruct s; cbn in Hrun; subst; reflexivity.
Qed.

Lemma pause_unpause_round_trip_witness :
  paused Mock.submitted = false
  /\ unpause (Mock.at_time Mock.alice 1600) Mock.halted
     = Ok (Mock.submitted, [Unpaused Mock.alice]).
Proof.
  assert (Hrun : paused Mock.submitted = false) by reflexivity.
  split; [exact Hrun |].
  destruct (pause_unpause_round_trip (Mock.at_time Mock.alice 1500)
              (Mock.at_time Mock.alice 1600) Mock.submitted
              eq_refl eq_refl Hrun) as [_ (s1 & Hp & _ & Hu)].
  assert (Hs1 : s1 = Mock.halted).
  { assert (Hh : pause (Mock.at_time Mock.alice 1500) Mock.submitted
                 = Ok (Mock.halted, [Paused Mock.alice]))
      by (vm_compute; reflexivity).
    rewrite Hh in Hp. injection Hp as <-. reflexivity. }
  rewrite <- Hs1. exact Hu.
Defined.

(** ** The batch lifecycle *)

(** X8. A batch moves Closed, Open, Closed under the owner's openBatch and
    closeBatch: opening a closed batch succeeds, opening it again reverts
    with BatchAlreadyActive, closing it succeeds and restores what every
    reader of the batch table sees, closing it again reverts with
    BatchNotActive; no other batch changes state, and the application
    stored for the batch survives the closing. *)
Theorem batch_lifecycle (env1 env2 env3 : Env) (b : uint256) (s : State) :
  msg_sender env1 = owner s ->
  msg_sender env2 = owner s ->
  msg_sender env3 = owner s ->
  batchActive_at s b = false ->
  closeBatch env1 b s = Revert BatchNotActive
  /\ exists s1 s2,
       openBatch env1 b s = Ok (s1, [BatchOpened b])
       /\ batchActive_at s1 b = true
       /\ openBatch env2 b s1 = Revert BatchAlreadyActive
       /\ closeBatch env2 b s1 = Ok (s2, [BatchClosed b])
       /\ closeBatch env3 b s2 = Revert BatchNotActive
       /\ (forall b', batchActive_at s2 b' = batchActive_at s b')
       /\ (forall b', b' <> b -> batchActive_at s1 b' = batchActive_at s b')
       /\ applications s2 = applications s.
Proof.
  intros H1 H2 H3 Hclosed.
  assert (Hopen : batchActive_at
                    (set_batchActive (<[b:=true]> (batchActive s)) s) b = true).
  { unfold batchActive_at. cbn [batchActive set_batchActive].
    by rewrite mapping_get_insert_eq. }
  assert (Hclosed' : batchActive_at
            (set_batchActive
               (<[b:=false]>
                  (batchActive
                     (set_batchActive (<[b:=true]> (batchActive s)) s)))
               (set_batchActive (<[b:=true]> (batchActive s)) s)) b = false).
  { unfold batchActive_at. cbn [batchActive set_batchActive].
    by rewrite mapping_get_insert_eq. }
  split.
  - unfold closeBatch. rewrite (onlyOwner_owner env1 s H1), Hclosed.
    reflexivity.
  - eexists; eexists. split; [| split; [| split; [| split; [| split]]]].
    + unfold openBatch. rewrite (onlyOwner_owner env1 s H1), Hclosed.
      reflexivity.
    + exact Hopen.
    + unfold openBatch.
      assert (Ho : onlyOwner env2
                (set_batchActive (<[b:=true]> (batchActive s)) s) = Ok tt)
        by (apply onlyOwner_owner; exact H2).
      rewrite Ho, Hopen. reflexivity.
    + unfold closeBatch.
      assert (Ho : onlyOwner env2
                (set_batchActive (<[b:=true]> (batchActive s)) s) = Ok tt)
        by (apply onlyOwner_owner; exact H2).
      rewrite Ho, Hopen. reflexivity.
    + unfold closeBatch at 1.
      match goal with
      | |- context [onlyOwner env3 ?s2] =>
          assert (Ho : onlyOwner env3 s2 = Ok tt)
            by (apply onlyOwner_owner; exact H3)
      end.
      rewrite Ho, Hclosed'. reflexivity.
    + split; [| split; [| reflexivity]].
      * intros b'. destruct (decide (b' = b)) as [-> | Hne].
        -- rewrite Hclosed', Hclosed. reflexivity.
        -- unfold batchActive_at. cbn [batchActive set_batchActive].
           rewrite !mapping_get_insert_ne by (intros Heq; apply Hne; by symmetry).
           reflexivity.
      * intros b' Hne. unfold batchActive_at.
        cbn [batchActive set_batchActive].
        rewrite mapping_get_insert_ne by (intros Heq; apply Hne; by symmetry).
        reflexivity.
Qed.

(** alice opens and closes batch 2. *)
Lemma batch_lifecycle_witness :
  batchActive_at Mock.submitted 2 = false
  /\ exists s1 s2,
       openBatch (Mock.at_time Mock.alice 1100) 2 Mock.submitted
       = Ok (s1, [BatchOpened 2])
       /\ closeBatch (Mock.at_time Mock.alice 1200) 2 s1
          = Ok (s2, [BatchClosed 2])
       /\ closeBatch (Mock.at_time Mock.alice 1300) 2 s2
          = Revert BatchNotActive.
Proof.
  assert (Hclosed : batchActive_at Mock.submitted 2 = false)
    by (vm_compute; reflexivity).
  split; [exact Hclosed |].
  destruct (batch_lifecycle (Mock.at_time Mock.alice 1100)
              (Mock.at_time Mock.alice 1200) (Mock.at_time Mock.alice 1300)
              2 Mock.submitted eq_refl eq_refl eq_refl Hclosed)
    as [_ (s1 & s2 & Ho & _ & _ & Hc & Hcc & _)].
  exists s1, s2. split; [exact Ho |]. split; [exact Hc | exact Hcc].
Defined.

(** X9. Between openBatch and closeBatch a batch accepts submissions, and
    after closeBatch it refuses them: once the owner has closed an open
    batch, every provider's submission into it reverts with BatchNotActive
    while the system is unpaused, whatever the time. *)
Theorem closed_batch_refuses_submissions (env : Env) (b : uint256) (s s1 : State)
    (log : list Event) :
  closeBatch env b s = Ok (s1, log) ->
  batchActive_at s b = true
  /\ forall env' amount score,
       isProvider_at s (msg_sender env') = true ->
       paused s = false ->
       submitGrantApplication env' b amount score s1 = Revert BatchNotActive.
Proof.
  unfold closeBatch, onlyOwner.
  destruct (msg_sender env =? owner s); cbn; [| discriminate].
  destruct (batchActive_at s b) eqn:Hopen; cbn; [| discriminate].
  intros H. injection H as <- _. split; [reflexivity |].
  intros env' amount score Hprov Hrun.
  rewrite submitGrantApplication_guards.
  unfold isProvider_at, batchActive_at.
  cbn [isProvider paused batchActive set_batchActive].
  fold (isProvider_at s (msg_sender env')). rewrite Hprov, Hrun.
  rewrite mapping_get_insert_eq. reflexivity.
Qed.

(** alice closes batch 1; bob's next submission, well after his cooldown,
    is refused. *)
Lemma closed_batch_refuses_submissions_witness :
  exists s1,
    closeBatch (Mock.at_time Mock.alice 1500) 1 Mock.submitted
    = Ok (s1, [BatchClosed 1])
    /\ submitGrantApplication (Mock.at_time Mock.bob 5000) 1 50 3 s1
       = Revert BatchNotActive.
Proof.
  eexists. 
  assert (Hc : closeBatch (Mock.at_time Mock.alice 1500) 1 Mock.submitted
               = Ok (storage_after Mock.this (Mock.at_time Mock.alice 1500)
                       (CloseBatch 1) Mock.submitted, [BatchClosed 1]))
    by (vm_compute; reflexivity).
  split; [exact Hc |].
  apply (proj2 (closed_batch_refuses_submissions _ _ _ _ _ Hc)).
  - vm_compute; reflexivity.
  - reflexivity.
Defined.

(** X10. A disclosure request is not tied to the batch being open: its
    outcome does not read the batch table, so the owner can request the
    grant amount of a closed batch exactly as of an open one. *)
Theorem request_ignores_batch_state {fhe : FHEVM} (this : address)
    (env : Env) (b : uint256) (s : State) (table : gmap Z bool) :
  match calculateAndRequestGrantAmountDecryption this env b s with
  | Revert e =>
      calculateAndRequestGrantAmountDecryption this env b
        (set_batchActive table s) = Revert e
  | Ok (s1, log) =>
      calculateAndRequestGrantAmountDecryption this env b
        (set_batchActive table s) = Ok (set_batchActive table s1, log)
  end.
Proof.
  rewrite !calculateAndRequestGrantAmountDecryption_guards.
  change (owner (set_batchActive table s)) with (owner s).
  change (paused (set_batchActive table s)) with (paused s).
  change (cooldownSeconds (set_batchActive table s)) with (cooldownSeconds s).
  change (lastDecryptionRequestTime_at (set_batchActive table s))
    with (lastDecryptionRequestTime_at s).
  change (applications_at (set_batchActive table s))
    with (applications_at s).
  repeat match goal with
         | |- context [if ?c then _ else _] => destruct c
         end; reflexivity.
Qed.

(** ** Requests and their callbacks *)

(** X11. The callback reads the decryption contexts and the applications
    and nothing else: in two storages that agree on these two tables it
    reverts with the same error, or is accepted with the same log and the
    same contexts afterwards.  In particular pausing the system, closing
    the batch or transferring the ownership does not stop an outstanding
    request from being finalized. *)
Theorem callback_reads_two_tables {fhe : FHEVM} (this : address)
    (env env' : Env) (r : uint256) (cleartexts proof : bytes) (s s' : State) :
  decryptionContexts s' = decryptionContexts s ->
  applications s' = applications s ->
  callback_outcome (myCallback this env' r cleartexts proof s')
  = callback_outcome (myCallback this env r cleartexts proof s).
Proof.
  intros Hc Ha. unfold myCallback, decryptionContexts_at, applications_at.
  cbn [decryptionContexts set_decryptionContexts]. rewrite Hc, Ha.
  destruct (require _ ReplayAttempt); cbn [mbind Result_bind callback_outcome];
    [reflexivity |].
  destruct (require _ StateMismatch); cbn [mbind Result_bind callback_outcome];
    [reflexivity |].
  destruct (checkSignatures r cleartexts proof); [| reflexivity].
  destruct (abi_decode_uint256 cleartexts);
    cbn [mbind Result_bind callback_outcome decryptionContexts
         set_decryptionContexts]; reflexivity.
Qed.

(** The answer to request 7 is accepted in the paused system just as in
    the running one. *)
Lemma callback_reads_two_tables_witness :
  paused (run Mock.this [(Mock.at_time Mock.alice 2050, Pause)] Mock.requested)
  = true
  /\ callback_outcome
       (myCallback Mock.this (Mock.at_time Mock.carol 2100) 7
          (Mock.word x2a) (Mock.word x2a)
          (run Mock.this [(Mock.at_time Mock.alice 2050, Pause)]
             Mock.requested))
     = inr (decryptionContexts Mock.finalized, [DecryptionCompleted 7 1 0 0 42]).
Proof.
  split; [vm_compute; reflexivity |].
  rewrite (callback_reads_two_tables Mock.this (Mock.at_time Mock.carol 2100)
             (Mock.at_time Mock.carol 2100) 7 (Mock.word x2a) (Mock.word x2a)
             Mock.requested
             (run Mock.this [(Mock.at_time Mock.alice 2050, Pause)]
                Mock.requested) eq_refl eq_refl).
  vm_compute. reflexivity.
Defined.

(** X12. Request and callback compose: right after a disclosure request
    has gone through, the callback for the request id the bridge returned
    passes the replay and state-hash checks, so it is accepted from any
    caller as soon as the proof verifies for a cleartext of at least 32
    bytes, and it logs the batch of the request; with a proof that does not
    verify it reverts with DecryptionFailed. *)
Theorem request_then_callback {fhe : FHEVM} (this : address) (env env' : Env)
    (b : uint256) (s s1 : State) (log : list Event)
    (cleartexts proof : bytes) :
  calculateAndRequestGrantAmountDecryption this env b s = Ok (s1, log) ->
  (checkSignatures (bridge_requestId env) cleartexts proof = false ->
   myCallback this env' (bridge_requestId env) cleartexts proof s1
   = Revert DecryptionFailed)
  /\ (checkSignatures (bridge_requestId env) cleartexts proof = true ->
      (32 <= length cleartexts)%nat ->
      exists s2 amount,
        myCallback this env' (bridge_requestId env) cleartexts proof s1
        = Ok (s2, [DecryptionCompleted (bridge_requestId env) b 0 0 amount])
        /\ abi_decode_uint256 cleartexts = Ok amount
        /\ processed (decryptionContexts_at s2 (bridge_requestId env)) = true).
Proof.
  rewrite calculateAndRequestGrantAmountDecryption_guards.
  repeat match goal with
         | |- context [if ?c then _ else _] => destruct c
         end; intros H; try discriminate H.
  injection H as <- _.
  assert (Hctx : decryptionContexts_at (requested_storage this env b s)
                   (bridge_requestId env)
                 = {| batchId := b;
                      stateHash := commitment this
                        (fheMul (encryptedAmount (applications_at s b))
                                (encryptedScore (applications_at s b)));
                      processed := false |}).
  { unfold decryptionContexts_at, requested_storage.
    cbn [decryptionContexts set_decryptionContexts].
    by rewrite mapping_get_insert_eq. }
  assert (Happ : encryptedGrantAmount
                   (applications_at (requested_storage this env b s) b)
                 = fheMul (encryptedAmount (applications_at s b))
                          (encryptedScore (applications_at s b))).
  { unfold applications_at at 1, requested_storage.
    cbn [applications set_applications set_decryptionContexts].
    by rewrite mapping_get_insert_eq. }
  assert (Hp : processed (decryptionContexts_at
                 (requested_storage this env b s) (bridge_requestId env))
               = false) by (rewrite Hctx; reflexivity).
  assert (Hm : commitment this
                 (encryptedGrantAmount
                    (applications_at (requested_storage this env b s)
                       (batchId (decryptionContexts_at
                          (requested_storage this env b s)
                          (bridge_requestId env)))))
               = stateHash (decryptionContexts_at
                   (requested_storage this env b s) (bridge_requestId env))).
  { rewrite Hctx. cbn [batchId stateHash]. rewrite Happ. reflexivity. }
  split.
  - intros Hv. exact (myCallback_bad_proof this env' _ _ _ _ Hp Hm Hv).
  - intros Hv Hlen.
    destruct (abi_decode_uint256_long cleartexts Hlen) as [amount Hd].
    pose proof (myCallback_accepts this env' _ cleartexts proof _ amount
                  Hp Hm Hv Hd) as Hok.
    rewrite Hctx in Hok. cbn [batchId stateHash] in Hok.
    eexists; exists amount. split; [exact Hok |]. split; [exact Hd |].
    unfold decryptionContexts_at.
    cbn [decryptionContexts set_decryptionContexts].
    by rewrite mapping_get_insert_eq.
Qed.

(** alice's request for batch 1 gets id 7; carol delivers the answer 42. *)
Lemma request_then_callback_witness :
  exists s1 log s2,
    calculateAndRequestGrantAmountDecryption Mock.this
      (Mock.requesting Mock.alice 2000 7) 1 Mock.submitted = Ok (s1, log)
    /\ myCallback Mock.this (Mock.at_time Mock.carol 2100) 7
         (Mock.word x2a) (Mock.word x2a) s1
       = Ok (s2, [DecryptionCompleted 7 1 0 0 42]).
Proof.
  assert (Hreq : calculateAndRequestGrantAmountDecryption Mock.this
                   (Mock.requesting Mock.alice 2000 7) 1 Mock.submitted
                 = Ok (Mock.requested, [DecryptionRequested 7 1 4497]))
    by (vm_compute; reflexivity).
  destruct (proj2 (request_then_callback Mock.this
                     (Mock.requesting Mock.alice 2000 7)
                     (Mock.at_time Mock.carol 2100) 1 Mock.submitted
                     Mock.requested _ (Mock.word x2a) (Mock.word x2a) Hreq))
    as (s2 & amount & Hcb & Hd & _).
  - vm_compute; reflexivity.
  - vm_compute. apply le_n.
  - exists Mock.requested, [DecryptionRequested 7 1 4497], s2.
    split; [exact Hreq |].
    assert (Ha : amount = 42).
    { assert (Hd' : abi_decode_uint256 (Mock.word x2a) = Ok 42)
        by (vm_compute; reflexivity).
      rewrite Hd' in Hd. injection Hd as <-. reflexivity. }
    rewrite <- Ha. exact Hcb.
Defined.

(** X13. The errors of a disclosure request surface in the order of its
    guards: NotOwner, then PausedError, then the throttle (CooldownActive,
    or the overflow panic when the last request time plus the cooldown
    exceeds the largest uint256), and only then InvalidBatch for an
    uninitialized amount or score; the request goes through exactly when no
    guard fails. *)
Theorem request_error_order {fhe : FHEVM} (this : address) (env : Env)
    (b : uint256) (s : State) :
  (msg_sender env <> owner s ->
   calculateAndRequestGrantAmountDecryption this env b s = Revert NotOwner)
  /\ (msg_sender env = owner s -> paused s = true ->
      calculateAndRequestGrantAmountDecryption this env b s
      = Revert PausedError)
  /\ (msg_sender env = owner s -> paused s = false ->
      block_timestamp env
      < lastDecryptionRequestTime_at s (msg_sender env) + cooldownSeconds s ->
      calculateAndRequestGrantAmountDecryption this env b s
      = if max_uint256
           <? lastDecryptionRequestTime_at s (msg_sender env)
              + cooldownSeconds s
        then Revert Panic_Overflow else Revert CooldownActive)
  /\ (msg_sender env = owner s -> paused s = false ->
      block_timestamp env <= max_uint256 ->
      lastDecryptionRequestTime_at s (msg_sender env) + cooldownSeconds s
      <= block_timestamp env ->
      calculateAndRequestGrantAmountDecryption this env b s
      = if FHE_isInitialized (encryptedAmount (applications_at s b))
           && FHE_isInitialized (encryptedScore (applications_at s b))
        then Ok (requested_storage this env b s,
                 [DecryptionRequested (bridge_requestId env) b
                    (commitment this
                       (fheMul (encryptedAmount (applications_at s b))
                               (encryptedScore (applications_at s b))))])
        else Revert InvalidBatch).
Proof.
  rewrite calculateAndRequestGrantAmountDecryption_guards.
  split; [| split; [| split]].
  - intros Hother.
    destruct (Z.eqb_spec (msg_sender env) (owner s)); [contradiction |].
    reflexivity.
  - intros Hown Hpaused. rewrite Hown, Z.eqb_refl, Hpaused. reflexivity.
  - intros Hown Hrun Hearly. rewrite Hown in Hearly |- *.
    rewrite Z.eqb_refl, Hrun. cbn [negb].
    destruct (Z.ltb_spec max_uint256
                (lastDecryptionRequestTime_at s (owner s) + cooldownSeconds s));
      [reflexivity |].
    destruct (Z.ltb_spec (block_timestamp env)
                (lastDecryptionRequestTime_at s (owner s) + cooldownSeconds s));
      [reflexivity | lia].
  - intros Hown Hrun Hnow Hlate. rewrite Hown in Hlate |- *.
    rewrite Z.eqb_refl, Hrun. cbn [negb].
    destruct (Z.ltb_spec max_uint256
                (lastDecryptionRequestTime_at s (owner s) + cooldownSeconds s));
      [lia |].
    destruct (Z.ltb_spec (block_timestamp env)
                (lastDecryptionRequestTime_at s (owner s) + cooldownSeconds s));
      [lia |].
    destruct (FHE_isInitialized (encryptedAmount (applications_at s b)));
      destruct (FHE_isInitialized (encryptedScore (applications_at s b)));
      reflexivity.
Qed.

(** In the paused system alice's request for the never-filled batch 5 is
    refused for the pause, not for the batch; and an early request in the
    running system is refused for the cooldown. *)
Lemma request_error_order_witness :
  calculateAndRequestGrantAmountDecryption Mock.this
    (Mock.requesting Mock.alice 3000 9) 5 Mock.halted = Revert PausedError
  /\ calculateAndRequestGrantAmountDecryption Mock.this
       (Mock.requesting Mock.alice 2030 9) 5 Mock.requested
     = Revert CooldownActive.
Proof.
  split.
  - apply (proj1 (proj2 (request_error_order Mock.this
                           (Mock.requesting Mock.alice 3000 9) 5 Mock.halted)));
      vm_compute; reflexivity.
  - rewrite (proj1 (proj2 (proj2 (request_error_order Mock.this
               (Mock.requesting Mock.alice 2030 9) 5 Mock.requested))));
      vm_compute; reflexivity.
Defined.

(** X14. Request frame: a disclosure request that goes through writes the
    caller's last request time, the grant amount of its batch and the
    context under the returned request id, and nothing else: the
    administration, the submission times, the batch table, the amount and
    score of its batch, every other batch's application and every other
    context are as before. *)
Theorem request_frame {fhe : FHEVM} (this : address) (env : Env)
    (b : uint256) (s s1 : State) (log : list Event) :
  calculateAndRequestGrantAmountDecryption this env b s = Ok (s1, log) ->
  owner s1 = owner s
  /\ isProvider s1 = isProvider s
  /\ paused s1 = paused s
  /\ cooldownSeconds s1 = cooldownSeconds s
  /\ batchActive s1 = batchActive s
  /\ lastSubmissionTime s1 = lastSubmissionTime s
  /\ (forall a, a <> msg_sender env ->
        lastDecryptionRequestTime_at s1 a = lastDecryptionRequestTime_at s a)
  /\ encryptedAmount (applications_at s1 b)
     = encryptedAmount (applications_at s b)
  /\ encryptedScore (applications_at s1 b)
     = encryptedScore (applications_at s b)
  /\ (forall b', b' <> b -> applications s1 !! b' = applications s !! b')
  /\ (forall r, r <> bridge_requestId env ->
        decryptionContexts s1 !! r = decryptionContexts s !! r).
Proof.
  rewrite calculateAndRequestGrantAmountDecryption_guards.
  repeat match goal with
         | |- context [if ?c then _ else _] => destruct c eqn:?
         end; intros H; try discriminate H.
  injection H as <- _. unfold requested_storage.
  repeat apply conj; try reflexivity.
  - cbn. assumption.
  - intros a Ha. unfold lastDecryptionRequestTime_at.
    cbn [lastDecryptionRequestTime set_decryptionContexts set_applications
         set_lastDecryptionRequestTime].
    rewrite mapping_get_insert_ne by (intros Heq; apply Ha; by symmetry).
    reflexivity.
  - unfold applications_at at 1.
    cbn [applications set_applications set_decryptionContexts].
    by rewrite mapping_get_insert_eq.
  - unfold applications_at at 1.
    cbn [applications set_applications set_decryptionContexts].
    by rewrite mapping_get_insert_eq.
  - intros b' Hne.
    cbn [applications set_applications set_decryptionContexts].
    rewrite lookup_insert_ne by (intros Heq; apply Hne; by symmetry).
    reflexivity.
  - intros r Hne. cbn [decryptionContexts set_decryptionContexts].
    rewrite lookup_insert_ne by (intros Heq; apply Hne; by symmetry).
    reflexivity.
Qed.

Lemma request_frame_witness :
  calculateAndRequestGrantAmountDecryption Mock.this
    (Mock.requesting Mock.alice 2000 7) 1 Mock.submitted
  = Ok (Mock.requested, [DecryptionRequested 7 1 4497])
  /\ lastSubmissionTime Mock.requested = lastSubmissionTime Mock.submitted
  /\ encryptedAmount (applications_at Mock.requested 1) = 100.
Proof.
  assert (Hreq : calculateAndRequestGrantAmountDecryption Mock.this
                   (Mock.requesting Mock.alice 2000 7) 1 Mock.submitted
                 = Ok (Mock.requested, [DecryptionRequested 7 1 4497]))
    by (vm_compute; reflexivity).
  split; [exact Hreq |].
  destruct (request_frame Mock.this _ _ _ _ _ Hreq)
    as (_ & _ & _ & _ & _ & Hsub & _ & Ha & _).
  split; [exact Hsub |]. rewrite Ha. vm_compute; reflexivity.
Defined.

(** ** Submissions *)



(** X16. Last write wins, batch by batch: of two submissions into a batch
    that both go through, the application holds the handles of the second
    and an uninitialized grant amount; a submission into one batch leaves
    every other batch's application, every decryption context and every
    other provider's last submission time as they were. *)
Theorem last_write_wins (env1 env2 : Env) (b : uint256)
    (a1 c1 a2 c2 : euint32) (s s1 s2 : State) (log1 log2 : list Event) :
  submitGrantApplication env1 b a1 c1 s = Ok (s1, log1) ->
  submitGrantApplication env2 b a2 c2 s1 = Ok (s2, log2) ->
  applications_at s2 b
  = {| encryptedAmount := a2; encryptedScore := c2;
       encryptedGrantAmount := euint32_zero |}
  /\ (forall b', b' <> b -> applications s2 !! b' = applications s !! b')
  /\ decryptionContexts s2 = decryptionContexts s
  /\ (forall p, p <> msg_sender env1 -> p <> msg_sender env2 ->
        lastSubmissionTime s2 !! p = lastSubmissionTime s !! p).
Proof.
  intros H1 H2.
  apply submitGrantApplication_Ok_inv in H1 as [-> _].
  apply submitGrantApplication_Ok_inv in H2 as [-> _].
  repeat apply conj.
  - unfold applications_at. cbn [applications set_applications].
    by rewrite mapping_get_insert_eq.
  - intros b' Hne.
    cbn [applications set_applications set_lastSubmissionTime].
    rewrite !lookup_insert_ne by (intros Heq; apply Hne; by symmetry).
    reflexivity.
  - reflexivity.
  - intros p Hp1 Hp2.
    cbn [lastSubmissionTime set_applications set_lastSubmissionTime].
    rewrite !lookup_insert_ne by (intros Heq; congruence).
    reflexivity.
Qed.

(** bob overwrites his application for batch 1 after the cooldown. *)
Lemma last_write_wins_witness :
  exists s1 log1 s2 log2,
    submitGrantApplication (Mock.at_time Mock.bob 1000) 1 100 4 Mock.ready
    = Ok (s1, log1)
    /\ submitGrantApplication (Mock.at_time Mock.bob 1100) 1 50 3 s1
       = Ok (s2, log2)
    /\ applications_at s2 1
       = {| encryptedAmount := 50; encryptedScore := 3;
            encryptedGrantAmount := 0 |}.
Proof.
  assert (H1 : submitGrantApplication (Mock.at_time Mock.bob 1000) 1 100 4
                 Mock.ready
               = Ok (Mock.submitted, [GrantSubmitted Mock.bob 1 100 4]))
    by (vm_compute; reflexivity).
  assert (H2 : submitGrantApplication (Mock.at_time Mock.bob 1100) 1 50 3
                 Mock.submitted
               = Ok (storage_after Mock.this (Mock.at_time Mock.bob 1100)
                       (SubmitGrantApplication 1 50 3) Mock.submitted,
                     [GrantSubmitted Mock.bob 1 50 3]))
    by (vm_compute; reflexivity).
  do 4 eexists. split; [exact H1 |]. split; [exact H2 |].
  exact (proj1 (last_write_wins _ _ _ _ _ _ _ _ _ _ _ _ H1 H2)).
Defined.

(** X17. The submission throttle is per provider and counts from the last
    accepted submission: after a provider's submission at time t has gone
    through, with t plus the cooldown within uint256, the same provider's
    next submission into the still open batch reverts with CooldownActive
    at every time before t plus the cooldown and goes through from then on,
    while every other provider's last submission time is untouched. *)
Theorem submission_throttle (env env' : Env) (b : uint256)
    (a1 c1 a2 c2 : euint32) (s s1 : State) (log : list Event) :
  submitGrantApplication env b a1 c1 s = Ok (s1, log) ->
  msg_sender env' = msg_sender env ->
  block_timestamp env + cooldownSeconds s <= max_uint256 ->
  (block_timestamp env' < block_timestamp env + cooldownSeconds s ->
   submitGrantApplication env' b a2 c2 s1 = Revert CooldownActive)
  /\ (block_timestamp env + cooldownSeconds s <= block_timestamp env' ->
      succeeds (submitGrantApplication env' b a2 c2 s1))
  /\ (forall q, q <> msg_sender env ->
        lastSubmissionTime_at s1 q = lastSubmissionTime_at s q).
Proof.
  intros Hsub Hsame Hfit.
  pose proof Hsub as Hg. rewrite submitGrantApplication_guards in Hg.
  destruct (isProvider_at s (msg_sender env)) eqn:Hprov; [| discriminate].
  destruct (paused s) eqn:Hrun; [discriminate |].
  destruct (batchActive_at s b) eqn:Hopen; [| discriminate]. clear Hg.
  apply submitGrantApplication_Ok_inv in Hsub as [-> _].
  assert (Hg : forall k,
    submitGrantApplication env' b a2 c2
      (set_applications
         (<[b := {| encryptedAmount := a1; encryptedScore := c1;
                    encryptedGrantAmount := euint32_zero |}]> (applications s))
         (set_lastSubmissionTime
            (<[msg_sender env := block_timestamp env]>
               (lastSubmissionTime s)) s)) = k ->
    (if block_timestamp env' <? block_timestamp env + cooldownSeconds s
     then Revert CooldownActive
     else Ok (set_applications
                (<[b := {| encryptedAmount := a2; encryptedScore := c2;
                           encryptedGrantAmount := euint32_zero |}]>
                   (<[b := {| encryptedAmount := a1; encryptedScore := c1;
                              encryptedGrantAmount := euint32_zero |}]>
                      (applications s)))
                (set_lastSubmissionTime
                   (<[msg_sender env := block_timestamp env']>
                      (<[msg_sender env := block_timestamp env]>
                         (lastSubmissionTime s))) s),
              [GrantSubmitted (msg_sender env) b a2 c2])) = k).
  { intros k <-. rewrite submitGrantApplication_guards.
    unfold isProvider_at, batchActive_at, lastSubmissionTime_at.
    cbn [isProvider paused batchActive cooldownSeconds lastSubmissionTime
         applications set_applications set_lastSubmissionTime].
    fold (isProvider_at s (msg_sender env')). fold (batchActive_at s b).
    rewrite Hsame, Hprov, Hrun, Hopen, mapping_get_insert_eq. cbn [negb].
    destruct (Z.ltb_spec max_uint256
                (block_timestamp env + cooldownSeconds s)); [lia |].
    reflexivity. }
  split; [| split].
  - intros Hearly. rewrite <- (Hg _ eq_refl).
    destruct (Z.ltb_spec (block_timestamp env')
                (block_timestamp env + cooldownSeconds s)); [reflexivity | lia].
  - intros Hlate. rewrite <- (Hg _ eq_refl).
    destruct (Z.ltb_spec (block_timestamp env')
                (block_timestamp env + cooldownSeconds s)); [lia |].
    by eexists.
  - intros q Hq. unfold lastSubmissionTime_at.
    cbn [lastSubmissionTime set_applications set_lastSubmissionTime].
    rewrite mapping_get_insert_ne by (intros Heq; apply Hq; by symmetry).
    reflexivity.
Qed.

(** bob submitted at time 1000 under a cooldown of 60: time 1059 is too
    early, time 1060 is not. *)
Lemma submission_throttle_witness :
  submitGrantApplication (Mock.at_time Mock.bob 1059) 1 50 3 Mock.submitted
  = Revert CooldownActive
  /\ succeeds
       (submitGrantApplication (Mock.at_time Mock.bob 1060) 1 50 3
          Mock.submitted).
Proof.
  assert (H1 : submitGrantApplication (Mock.at_time Mock.bob 1000) 1 100 4
                 Mock.ready
               = Ok (Mock.submitted, [GrantSubmitted Mock.bob 1 100 4]))
    by (vm_compute; reflexivity).
  split.
  - apply (proj1 (submission_throttle (Mock.at_time Mock.bob 1000)
                    (Mock.at_time Mock.bob 1059) 1 100 4 50 3 _ _ _ H1
                    eq_refl ltac:(vm_compute; discriminate))).
    vm_compute. reflexivity.
  - apply (proj1 (proj2 (submission_throttle (Mock.at_time Mock.bob 1000)
                    (Mock.at_time Mock.bob 1060) 1 100 4 50 3 _ _ _ H1
                    eq_refl ltac:(vm_compute; discriminate)))).
    vm_compute. discriminate.
Defined.

(** X18. The request throttle is per caller, not per batch: after a
    disclosure request at time t has gone through, with t plus the cooldown
    within uint256, the same owner's next request, for whatever batch,
    reverts with CooldownActive at every time before t plus the
    cooldown. *)
Theorem request_throttle_spans_batches {fhe : FHEVM} (this : address)
    (env env' : Env) (b b' : uint256) (s s1 : State) (log : list Event) :
  calculateAndRequestGrantAmountDecryption this env b s = Ok (s1, log) ->
  msg_sender env' = msg_sender env ->
  block_timestamp env + cooldownSeconds s <= max_uint256 ->
  block_timestamp env' < block_timestamp env + cooldownSeconds s ->
  calculateAndRequestGrantAmountDecryption this env' b' s1
  = Revert CooldownActive.
Proof.
  intros Hreq Hsame Hfit Hearly.
  rewrite calculateAndRequestGrantAmountDecryption_guards in Hreq.
  destruct (Z.eqb_spec (msg_sender env) (owner s)) as [Hown |];
    [| discriminate].
  destruct (paused s) eqn:Hrun; [discriminate |].
  repeat match type of Hreq with
         | context [if ?c then _ else _] => destruct c; try discriminate Hreq
         end.
  injection Hreq as <- _.
  rewrite calculateAndRequestGrantAmountDecryption_guards.
  unfold requested_storage, lastDecryptionRequestTime_at.
  cbn [owner paused cooldownSeconds lastDecryptionRequestTime
       set_decryptionContexts set_applications set_lastDecryptionRequestTime].
  rewrite Hsame, Hown, Z.eqb_refl, Hrun. cbn [negb].
  rewrite <- Hown, mapping_get_insert_eq.
  destruct (Z.ltb_spec max_uint256
              (block_timestamp env + cooldownSeconds s)); [lia |].
  destruct (Z.ltb_spec (block_timestamp env')
              (block_timestamp env + cooldownSeconds s)); [reflexivity | lia].
Qed.

(** alice requested batch 1 at time 2000; her request for batch 2 at time
    2030 is throttled. *)
Lemma request_throttle_spans_batches_witness :
  calculateAndRequestGrantAmountDecryption Mock.this
    (Mock.requesting Mock.alice 2030 8) 2 Mock.requested
  = Revert CooldownActive.
Proof.
  assert (Hreq : calculateAndRequestGrantAmountDecryption Mock.this
                   (Mock.requesting Mock.alice 2000 7) 1 Mock.submitted
                 = Ok (Mock.requested, [DecryptionRequested 7 1 4497]))
    by (vm_compute; reflexivity).
  apply (request_throttle_spans_batches Mock.this
           (Mock.requesting Mock.alice 2000 7)
           (Mock.requesting Mock.alice 2030 8) 1 2 _ _ _ Hreq eq_refl).
  - vm_compute. discriminate.
  - vm_compute. reflexivity.
Defined.

(** X19. A new cooldown applies from the next check and rewrites no
    recorded time: after the owner has set the cooldown to n, a provider's
    submission into an open batch of the unpaused system is throttled by
    the unchanged last submission time plus n; with n = 0 a provider can
    submit again in the very block of the last submission. *)
Theorem setCooldownSeconds_takes_effect (env env' : Env) (n : uint256)
    (b : uint256) (amount score : euint32) (s : State) :
  msg_sender env = owner s ->
  isProvider_at s (msg_sender env') = true ->
  paused s = false ->
  batchActive_at s b = true ->
  lastSubmissionTime_at s (msg_sender env') + n <= max_uint256 ->
  exists s1,
    setCooldownSeconds env n s
    = Ok (s1, [CooldownSecondsSet (cooldownSeconds s) n])
    /\ lastSubmissionTime s1 = lastSubmissionTime s
    /\ lastDecryptionRequestTime s1 = lastDecryptionRequestTime s
    /\ (block_timestamp env' < lastSubmissionTime_at s (msg_sender env') + n ->
        submitGrantApplication env' b amount score s1 = Revert CooldownActive)
    /\ (lastSubmissionTime_at s (msg_sender env') + n <= block_timestamp env' ->
        succeeds (submitGrantApplication env' b amount score s1)).
Proof.
  intros Hown Hprov Hrun Hopen Hfit.
  unfold setCooldownSeconds. rewrite (onlyOwner_owner env s Hown).
  cbn [mbind Result_bind].
  eexists. split; [reflexivity |]. split; [reflexivity |].
  split; [reflexivity |].
  assert (Hg : submitGrantApplication env' b amount score
                 (set_cooldownSeconds n s)
               = if block_timestamp env'
                    <? lastSubmissionTime_at s (msg_sender env') + n
                 then Revert CooldownActive
                 else Ok (set_applications
                            (<[b := {| encryptedAmount := amount;
                                       encryptedScore := score;
                                       encryptedGrantAmount := euint32_zero |}]>
                               (applications s))
                            (set_lastSubmissionTime
                               (<[msg_sender env' := block_timestamp env']>
                                  (lastSubmissionTime s))
                               (set_cooldownSeconds n s)),
                          [GrantSubmitted (msg_sender env') b amount score])).
  { rewrite submitGrantApplication_guards.
    change (isProvider_at (set_cooldownSeconds n s))
      with (isProvider_at s).
    change (batchActive_at (set_cooldownSeconds n s))
      with (batchActive_at s).
    change (lastSubmissionTime_at (set_cooldownSeconds n s))
      with (lastSubmissionTime_at s).
    change (paused (set_cooldownSeconds n s)) with (paused s).
    change (cooldownSeconds (set_cooldownSeconds n s)) with n.
    rewrite Hprov, Hrun, Hopen. cbn [negb].
    destruct (Z.ltb_spec max_uint256
                (lastSubmissionTime_at s (msg_sender env') + n)); [lia |].
    reflexivity. }
  rewrite Hg. split.
  - intros Hearly.
    destruct (Z.ltb_spec (block_timestamp env')
                (lastSubmissionTime_at s (msg_sender env') + n));
      [reflexivity | lia].
  - intros Hlate.
    destruct (Z.ltb_spec (block_timestamp env')
                (lastSubmissionTime_at s (msg_sender env') + n)); [lia |].
    by eexists.
Qed.

(** bob submitted at time 1000; once alice has set the cooldown to 0 he can
    submit again at time 1000. *)
Lemma setCooldownSeconds_takes_effect_witness :
  exists s1,
    setCooldownSeconds (Mock.at_time Mock.alice 1000) 0 Mock.submitted
    = Ok (s1, [CooldownSecondsSet 60 0])
    /\ succeeds
         (submitGrantApplication (Mock.at_time Mock.bob 1000) 1 50 3 s1).
Proof.
  destruct (setCooldownSeconds_takes_effect (Mock.at_time Mock.alice 1000)
              (Mock.at_time Mock.bob 1000) 0 1 50 3 Mock.submitted)
    as (s1 & Hset & _ & _ & _ & Hgo).
  - reflexivity.
  - vm_compute; reflexivity.
  - reflexivity.
  - vm_compute; reflexivity.
  - vm_compute. discriminate.
  - exists s1. split; [exact Hset |]. apply Hgo. vm_compute. discriminate.
Defined.

(** ** The audit trail *)

(** X20. No call changes the storage silently: every call that goes
    through emits at most one record, and one that emits none (an
    addProvider or removeProvider that finds nothing to do) leaves the
    storage exactly as it was. *)
Theorem no_silent_change {fhe : FHEVM} (this : address) (env : Env)
    (c : Call) (s s' : State) (log : list Event) :
  call this env c s = Ok (s', log) ->
  (length log <= 1)%nat /\ (log = [] -> s' = s).
Proof.
  destruct c; cbn [call].
  all: try (unfold transferOwnership, addProvider, removeProvider, pause,
              unpause, setCooldownSeconds, openBatch, closeBatch,
              onlyOwner, whenNotPaused;
            tx_cases; intros H; try discriminate H;
            injection H as <- <-;
            (split; [cbn; lia | intros Hnil; first [discriminate Hnil
                                                   | reflexivity]])).
  - intros H. apply submitGrantApplication_Ok_inv in H as [_ ->].
    split; [cbn; lia | discriminate].
  - rewrite calculateAndRequestGrantAmountDecryption_guards.
    repeat match goal with
           | |- context [if ?c then _ else _] => destruct c
           end; intros H; try discriminate H.
    injection H as <- <-. split; [cbn; lia | discriminate].
  - intros H.
    destruct (myCallback_Ok_inv this env requestId cleartexts proof s s' log H)
      as (Hp & Hm & Hv & amount & Hd).
    rewrite (myCallback_accepts this env requestId cleartexts proof s amount
               Hp Hm Hv Hd) in H.
    injection H as <- <-. split; [cbn; lia | discriminate].
Qed.

(** alice allowlists bob a second time: the call goes through, logs
    nothing and changes nothing. *)
Lemma no_silent_change_witness :
  call Mock.this (Mock.at_time Mock.alice 1100) (AddProvider Mock.bob)
    Mock.ready = Ok (Mock.ready, []).
Proof.
  assert (H : exists s', call Mock.this (Mock.at_time Mock.alice 1100)
                (AddProvider Mock.bob) Mock.ready = Ok (s', []))
    by (eexists; vm_compute; reflexivity).
  destruct H as [s' H].
  rewrite H.
  rewrite (proj2 (no_silent_change Mock.this _ _ _ _ _ H) eq_refl).
  reflexivity.
Defined.

(** ** What no history changes *)

(** X21. The two tables batchTotalEncryptedAmount and
    batchTotalEncryptedScore are never written: after every history of
    calls, by whatever callers, they are what they were. *)
Theorem batch_totals_never_written {fhe : FHEVM} (this : address)
    (history : list (Env * Call)) (s : State) :
  batchTotalEncryptedAmount (run this history s) = batchTotalEncryptedAmount s
  /\ batchTotalEncryptedScore (run this history s)
     = batchTotalEncryptedScore s.
Proof.
  revert s. induction history as [| [env c] rest IH]; intros s; cbn [run].
  - split; reflexivity.
  - destruct (IH (storage_after this env c s)) as [IHa IHs].
    rewrite IHa, IHs. clear IH IHa IHs.
    unfold storage_after.
    destruct (call this env c s) as [e | [s' log]] eqn:Hcall;
      [split; reflexivity |].
    revert Hcall. destruct c; cbn [call].
    all: try (unfold transferOwnership, addProvider, removeProvider, pause,
                unpause, setCooldownSeconds, openBatch, closeBatch,
                onlyOwner, whenNotPaused;
              tx_cases; intros H; try discriminate H;
              injection H as <- _; split; reflexivity).
    + intros H. apply submitGrantApplication_Ok_inv in H as [-> _].
      split; reflexivity.
    + rewrite calculateAndRequestGrantAmountDecryption_guards.
      repeat match goal with
             | |- context [if ?c then _ else _] => destruct c
             end; intros H; try discriminate H.
      injection H as <- _. split; reflexivity.
    + intros H.
      destruct (myCallback_Ok_inv this env requestId cleartexts proof s s' log
                  H) as (Hp & Hm & Hv & amount & Hd).
      rewrite (myCallback_accepts this env requestId cleartexts proof s amount
                 Hp Hm Hv Hd) in H.
      injection H as <- _. split; reflexivity.
Qed.

Lemma decryptionContexts_at_set (m : gmap Z DecryptionContext) (s : State)
    (r : uint256) :
  decryptionContexts_at (set_decryptionContexts m s) r
  = mapping_get DecryptionContext_zero m r.
Proof. reflexivity. Qed.

(** The batch and the hash of a context survive every call that does not
    reuse its request id. *)
Lemma storage_after_context_fixed {fhe : FHEVM} (this : address)
    (env : Env) (c : Call) (r : uint256) (s : State) :
  ~ issues r (env, c) ->
  batchId (decryptionContexts_at (storage_after this env c s) r)
  = batchId (decryptionContexts_at s r)
  /\ stateHash (decryptionContexts_at (storage_after this env c s) r)
     = stateHash (decryptionContexts_at s r).
Proof.
  intros Hfresh. unfold storage_after.
  destruct (call this env c s) as [e | [s' log]] eqn:Hcall;
    [split; reflexivity |].
  revert Hcall. destruct c; cbn [call].
  all: try (unfold transferOwnership, addProvider, removeProvider, pause,
              unpause, setCooldownSeconds, openBatch, closeBatch,
              onlyOwner, whenNotPaused;
            tx_cases; intros H; try discriminate H;
            injection H as <- _; split; reflexivity).
  - intros H. apply submitGrantApplication_Ok_inv in H as [-> _].
    split; reflexivity.
  - rewrite calculateAndRequestGrantAmountDecryption_guards.
    repeat match goal with
           | |- context [if ?c then _ else _] => destruct c
           end; intros H; try discriminate H.
    injection H as <- _.
    unfold decryptionContexts_at, requested_storage.
    cbn [decryptionContexts set_decryptionContexts].
    rewrite mapping_get_insert_ne; [split; reflexivity |].
    intros Heq. apply Hfresh. exact Heq.
  - intros H.
    destruct (myCallback_Ok_inv this env requestId cleartexts proof s s' log H)
      as (Hp & Hm & Hv & amount & Hd).
    rewrite (myCallback_accepts this env requestId cleartexts proof s amount
               Hp Hm Hv Hd) in H.
    injection H as <- _.
    rewrite !decryptionContexts_at_set.
    destruct (decide (requestId = r)) as [-> | Hne].
    + rewrite mapping_get_insert_eq. split; reflexivity.
    + rewrite mapping_get_insert_ne by exact Hne. split; reflexivity.
Qed.

(** X22. A decryption context is bound to its batch and its hash for good:
    through every history of calls in which the bridge does not hand its
    request id out again, the batch id and the state hash stored under
    that id stay what they were; only the processed flag can move. *)
Theorem context_binding_is_permanent {fhe : FHEVM} (this : address)
    (history : list (Env * Call)) (r : uint256) (s : State) :
  Forall (fun ec => ~ issues r ec) history ->
  batchId (decryptionContexts_at (run this history s) r)
  = batchId (decryptionContexts_at s r)
  /\ stateHash (decryptionContexts_at (run this history s) r)
     = stateHash (decryptionContexts_at s r).
Proof.
  intros Hfresh. revert s.
  induction Hfresh as [| [env c] rest Hec _ IH]; intros s; cbn [run].
  - split; reflexivity.
  - destruct (IH (storage_after this env c s)) as [IHb IHh].
    destruct (storage_after_context_fixed this env c r s Hec) as [Hb Hh].
    split; congruence.
Qed.

(** Request 7 keeps its batch and hash through its own callback, a new
    submission and a second request with id 8. *)
Lemma context_binding_is_permanent_witness :
  batchId (decryptionContexts_at
       (run Mock.this
          [(Mock.at_time Mock.carol 2100,
            MyCallback 7 (Mock.word x2a) (Mock.word x2a));
           (Mock.at_time Mock.bob 2200, SubmitGrantApplication 1 50 3);
           (Mock.requesting Mock.alice 2300 8,
            CalculateAndRequestGrantAmountDecryption 1)]
          Mock.requested) 7) = 1
  /\ stateHash (decryptionContexts_at
       (run Mock.this
          [(Mock.at_time Mock.carol 2100,
            MyCallback 7 (Mock.word x2a) (Mock.word x2a));
           (Mock.at_time Mock.bob 2200, SubmitGrantApplication 1 50 3);
           (Mock.requesting Mock.alice 2300 8,
            CalculateAndRequestGrantAmountDecryption 1)]
          Mock.requested) 7) = 4497.
Proof.
  destruct (context_binding_is_permanent Mock.this
       [(Mock.at_time Mock.carol 2100,
         MyCallback 7 (Mock.word x2a) (Mock.word x2a));
        (Mock.at_time Mock.bob 2200, SubmitGrantApplication 1 50 3);
        (Mock.requesting Mock.alice 2300 8,
         CalculateAndRequestGrantAmountDecryption 1)] 7 Mock.requested)
    as [Hb Hh].
  - repeat constructor; cbn; intros H; try exact H; discriminate H.
  - rewrite Hb, Hh. split; vm_compute; reflexivity.
Defined.

(** X23. No finalization without a verified proof: whenever a call turns
    the processed flag of a request from false to true, that call is a
    callback for that very request whose recomputed hash matched the stored
    one, whose proof passed checkSignatures and whose cleartext decoded. *)
Theorem finalization_needs_verified_proof {fhe : FHEVM} (this : address)
    (env : Env) (c : Call) (r : uint256) (s : State) :
  processed (decryptionContexts_at s r) = false ->
  processed (decryptionContexts_at (storage_after this env c s) r) = true ->
  exists cleartexts proof,
    c = MyCallback r cleartexts proof
    /\ checkSignatures r cleartexts proof = true
    /\ commitment this
         (encryptedGrantAmount
            (applications_at s (batchId (decryptionContexts_at s r))))
       = stateHash (decryptionContexts_at s r)
    /\ succeeds (abi_decode_uint256 cleartexts).
Proof.
  intros Hopen. unfold storage_after.
  destruct (call this env c s) as [e | [s' log]] eqn:Hcall;
    [rewrite Hopen; discriminate |].
  revert Hcall. destruct c; cbn [call].
  all: try (unfold transferOwnership, addProvider, removeProvider, pause,
              unpause, setCooldownSeconds, openBatch, closeBatch,
              onlyOwner, whenNotPaused;
            tx_cases; intros H; try discriminate H;
            injection H as <- _; intros Hfin;
            assert (Hx : processed (decryptionContexts_at s r) = true)
              by exact Hfin;
            congruence).
  - intros H. apply submitGrantApplication_Ok_inv in H as [-> _].
    intros Hfin.
    assert (Hx : processed (decryptionContexts_at s r) = true) by exact Hfin.
    congruence.
  - rewrite calculateAndRequestGrantAmountDecryption_guards.
    repeat match goal with
           | |- context [if ?c then _ else _] => destruct c
           end; intros H; try discriminate H.
    injection H as <- _.
    unfold requested_storage. rewrite decryptionContexts_at_set.
    cbn [decryptionContexts set_applications set_lastDecryptionRequestTime].
    destruct (decide (bridge_requestId env = r)) as [-> | Hne].
    + rewrite mapping_get_insert_eq. discriminate.
    + rewrite mapping_get_insert_ne by exact Hne.
      fold (decryptionContexts_at s r). rewrite Hopen. discriminate.
  - intros H.
    destruct (myCallback_Ok_inv this env requestId cleartexts proof s s' log H)
      as (Hp & Hm & Hv & amount & Hd).
    rewrite (myCallback_accepts this env requestId cleartexts proof s amount
               Hp Hm Hv Hd) in H.
    injection H as <- _.
    rewrite decryptionContexts_at_set.
    destruct (decide (requestId = r)) as [-> | Hne].
    + intros _. exists cleartexts, proof.
      repeat split; try assumption. by exists amount.
    + rewrite mapping_get_insert_ne by exact Hne.
      fold (decryptionContexts_at s r). rewrite Hopen. discriminate.
Qed.

Lemma finalization_needs_verified_proof_witness :
  processed (decryptionContexts_at Mock.requested 7) = false
  /\ processed (decryptionContexts_at Mock.finalized 7) = true
  /\ checkSignatures 7 (Mock.word x2a) (Mock.word x2a) = true.
Proof.
  assert (H0 : processed (decryptionContexts_at Mock.requested 7) = false)
    by (vm_compute; reflexivity).
  assert (H1 : processed (decryptionContexts_at
                 (storage_after Mock.this (Mock.at_time Mock.carol 2100)
                    (MyCallback 7 (Mock.word x2a) (Mock.word x2a))
                    Mock.requested) 7) = true)
    by (vm_compute; reflexivity).
  split; [exact H0 |]. split; [exact H1 |].
  destruct (finalization_needs_verified_proof Mock.this _ _ _ _ H0 H1)
    as (cleartexts & proof & Hc & Hv & _).
  injection Hc as <- <-. exact Hv.
Defined.

(** ** The disclosed amount *)

Lemma be_value_from_bound (bs : bytes) (acc k : Z) :
  0 <= k -> 0 <= acc < 256 ^ k ->
  0 <= fold_left (fun acc b => acc * 256 + Z.of_N (Byte.to_N b)) bs acc
    < 256 ^ (k + Z.of_nat (length bs)).
Proof.
  revert acc k. induction bs as [| b bs IH]; intros acc k Hk Hacc.
  - cbn [fold_left length]. replace (k + Z.of_nat 0) with k by lia. exact Hacc.
  - cbn [fold_left length].
    replace (k + Z.of_nat (S (length bs)))
      with ((k + 1) + Z.of_nat (length bs)) by lia.
    apply IH; [lia |].
    pose proof (Byte.to_N_bounded b) as Hb.
    rewrite Z.pow_add_r by lia. change (256 ^ 1) with 256. lia.
Qed.

(** X24. The amount a callback discloses is the big-endian value of the
    first 32 bytes of the cleartext and nothing beyond them: the cleartext
    of an accepted callback has at least 32 bytes, the amount logged in
    DecryptionCompleted lies within uint256, and the total amount and
    total score logged beside it are always 0. *)
Theorem disclosed_amount_is_first_word {fhe : FHEVM} (this : address)
    (env : Env) (r : uint256) (cleartexts proof : bytes) (s s' : State)
    (log : list Event) :
  myCallback this env r cleartexts proof s = Ok (s', log) ->
  (32 <= length cleartexts)%nat
  /\ log = [DecryptionCompleted r (batchId (decryptionContexts_at s r)) 0 0
              (be_value (take 32 cleartexts))]
  /\ 0 <= be_value (take 32 cleartexts) <= max_uint256
  /\ forall more,
       myCallback this env r (take 32 cleartexts ++ more) proof s
       = Revert DecryptionFailed
       \/ myCallback this env r (take 32 cleartexts ++ more) proof s
          = Ok (s', log).
Proof.
  intros Hok.
  destruct (myCallback_Ok_inv this env r cleartexts proof s s' log Hok)
    as (Hp & Hm & Hv & amount & Hd).
  rewrite (myCallback_accepts this env r cleartexts proof s amount
             Hp Hm Hv Hd) in Hok.
  injection Hok as <- <-.
  unfold abi_decode_uint256 in Hd.
  destruct (Nat.ltb_spec (length cleartexts) 32) as [| Hlen];
    [discriminate Hd |].
  injection Hd as <-.
  split; [exact Hlen |]. split; [reflexivity |]. split.
  - pose proof (be_value_from_bound (take 32 cleartexts) 0 0
                  ltac:(lia) ltac:(cbn; lia)) as Hb.
    unfold be_value.
    assert (Hl : (length (take 32 cleartexts) <= 32)%nat)
      by (rewrite length_take; lia).
    assert (Hpow : 256 ^ (0 + Z.of_nat (length (take 32 cleartexts)))
                   <= 256 ^ 32)
      by (apply Z.pow_le_mono_r; lia).
    assert (Hmax : max_uint256 = 256 ^ 32 - 1) by reflexivity.
    lia.
  - intros more.
    destruct (checkSignatures r (take 32 cleartexts ++ more) proof) eqn:Hv';
      [right | left].
    + assert (Hd' : abi_decode_uint256 (take 32 cleartexts ++ more)
                    = Ok (be_value (take 32 cleartexts))).
      { unfold abi_decode_uint256.
        assert (Hl : length (take 32 cleartexts) = 32%nat)
          by (rewrite length_take; lia).
        destruct (Nat.ltb_spec (length (take 32 cleartexts ++ more)) 32)
          as [Hshort |]; [rewrite length_app in Hshort; lia |].
        rewrite take_app_length' by (symmetry; exact Hl). reflexivity. }
      exact (myCallback_accepts this env r _ proof s _ Hp Hm Hv' Hd').
    + exact (myCallback_bad_proof this env r _ proof s Hp Hm Hv').
Qed.

(** The accepted answer to request 7 discloses 42, the value of its one
    word. *)
Lemma disclosed_amount_is_first_word_witness :
  myCallback Mock.this (Mock.at_time Mock.carol 2100) 7
    (Mock.word x2a) (Mock.word x2a) Mock.requested
  = Ok (Mock.finalized, [DecryptionCompleted 7 1 0 0 42])
  /\ 0 <= be_value (take 32 (Mock.word x2a)) <= max_uint256.
Proof.
  assert (Hok : myCallback Mock.this (Mock.at_time Mock.carol 2100) 7
                  (Mock.word x2a) (Mock.word x2a) Mock.requested
                = Ok (Mock.finalized, [DecryptionCompleted 7 1 0 0 42]))
    by (vm_compute; reflexivity).
  split; [exact Hok |].
  exact (proj1 (proj2 (proj2 (disclosed_amount_is_first_word Mock.this _ _ _ _
                                 _ _ _ Hok)))).
Defined.

(** ** The deployed contract *)

(** X25. Right after deployment the deployer is the owner and the only
    allowlisted provider, the system is unpaused with a cooldown of 60
    seconds and every batch is closed: every submission reverts (with
    NotProvider for anyone but the deployer, with BatchNotActive for the
    deployer), and the deployer's disclosure request for any batch reverts
    with CooldownActive before time 60 and with InvalidBatch from then
    on. *)
Theorem deployment {fhe : FHEVM} (this : address) (deployer : Env) :
  owner (constructor deployer).1 = msg_sender deployer
  /\ (forall a, isProvider_at (constructor deployer).1 a = true
                <-> a = msg_sender deployer)
  /\ paused (constructor deployer).1 = false
  /\ cooldownSeconds (constructor deployer).1 = 60
  /\ (forall b, batchActive_at (constructor deployer).1 b = false)
  /\ (forall env b amount score,
        submitGrantApplication env b amount score (constructor deployer).1
        = Revert (if msg_sender env =? msg_sender deployer
                  then BatchNotActive else NotProvider))
  /\ (forall env b,
        msg_sender env = msg_sender deployer ->
        block_timestamp env <= max_uint256 ->
        calculateAndRequestGrantAmountDecryption this env b
          (constructor deployer).1
        = Revert (if block_timestamp env <? 60
                  then CooldownActive else InvalidBatch)).
Proof.
  assert (Hprov : forall a,
    isProvider_at (constructor deployer).1 a
    = (a =? msg_sender deployer)).
  { intros a. unfold isProvider_at, mapping_get. cbn [constructor fst isProvider].
    destruct (Z.eqb_spec a (msg_sender deployer)) as [-> | Hne].
    - by rewrite lookup_singleton_eq.
    - rewrite lookup_singleton_ne by (intros Heq; apply Hne; by symmetry).
      reflexivity. }
  split; [reflexivity |]. split; [| split; [reflexivity |
    split; [reflexivity | split; [| split]]]].
  - intros a. rewrite Hprov. apply Z.eqb_eq.
  - intros b. reflexivity.
  - intros env b amount score. rewrite submitGrantApplication_guards, Hprov.
    destruct (msg_sender env =? msg_sender deployer); reflexivity.
  - intros env b Hown Hnow.
    rewrite calculateAndRequestGrantAmountDecryption_guards.
    cbn [constructor fst owner paused cooldownSeconds].
    rewrite Hown, Z.eqb_refl. cbn [negb].
    assert (Hlast : lastDecryptionRequestTime_at (constructor deployer).1
                      (msg_sender deployer) = 0) by reflexivity.
    cbn [constructor fst] in Hlast. rewrite Hlast.
    assert (Hmax : max_uint256 = 2 ^ 256 - 1) by reflexivity.
    destruct (Z.ltb_spec max_uint256 (0 + 60)); [lia |].
    change (0 + 60) with 60.
    destruct (block_timestamp env <? 60); reflexivity.
Qed.

(** alice's deployment at time 1000: bob cannot submit, alice finds batch 1
    closed. *)
Lemma deployment_witness :
  submitGrantApplication (Mock.at_time Mock.bob 1000) 1 100 4 Mock.deployed
  = Revert NotProvider
  /\ calculateAndRequestGrantAmountDecryption Mock.this
       (Mock.requesting Mock.alice 1000 7) 1 Mock.deployed
     = Revert InvalidBatch.
Proof.
  destruct (deployment Mock.this (Mock.at_time Mock.alice 1000))
    as (_ & _ & _ & _ & _ & Hsub & Hreq).
  split.
  - exact (Hsub (Mock.at_time Mock.bob 1000) 1 100 4).
  - apply (Hreq (Mock.requesting Mock.alice 1000 7) 1 eq_refl).
    vm_compute. discriminate.
Defined.

(** X26. An outstanding request depends on its own batch only: a
    submission into any other batch, by any provider, leaves the outcome of
    the request's callback (its error, or its log and the contexts after
    it) exactly as it would have been. *)
Theorem callback_unaffected_by_other_batches {fhe : FHEVM} (this : address)
    (env env' : Env) (b' : uint256) (amount score : euint32)
    (r : uint256) (cleartexts proof : bytes) (s s1 : State)
    (log : list Event) :
  submitGrantApplication env b' amount score s = Ok (s1, log) ->
  b' <> batchId (decryptionContexts_at s r) ->
  callback_outcome (myCallback this env' r cleartexts proof s1)
  = callback_outcome (myCallback this env' r cleartexts proof s).
Proof.
  intros Hsub Hne.
  apply submitGrantApplication_Ok_inv in Hsub as [-> _].
  unfold myCallback.
  change (decryptionContexts_at (set_applications _ _) r)
    with (decryptionContexts_at s r).
  assert (Happ : applications_at
            (set_applications
               (<[b' := {| encryptedAmount := amount; encryptedScore := score;
                           encryptedGrantAmount := euint32_zero |}]>
                  (applications s))
               (set_lastSubmissionTime
                  (<[msg_sender env := block_timestamp env]>
                     (lastSubmissionTime s)) s))
            (batchId (decryptionContexts_at s r))
          = applications_at s (batchId (decryptionContexts_at s r))).
  { unfold applications_at. cbn [applications set_applications].
    by rewrite mapping_get_insert_ne. }
  rewrite Happ.
  destruct (require _ ReplayAttempt); cbn [mbind Result_bind callback_outcome];
    [reflexivity |].
  destruct (require _ StateMismatch); cbn [mbind Result_bind callback_outcome];
    [reflexivity |].
  destruct (checkSignatures r cleartexts proof); [| reflexivity].
  destruct (abi_decode_uint256 cleartexts);
    cbn [mbind Result_bind callback_outcome decryptionContexts
         set_decryptionContexts set_applications set_lastSubmissionTime];
    reflexivity.
Qed.

(** With batch 2 open, alice's submission into it does not disturb the
    answer to request 7, which is for batch 1. *)
Lemma callback_unaffected_by_other_batches_witness :
  exists s1 log,
    submitGrantApplication (Mock.at_time Mock.alice 2050) 2 9 9
      (run Mock.this [(Mock.at_time Mock.alice 2040, OpenBatch 2)]
         Mock.requested) = Ok (s1, log)
    /\ callback_outcome
         (myCallback Mock.this (Mock.at_time Mock.carol 2100) 7
            (Mock.word x2a) (Mock.word x2a) s1)
       = inr (decryptionContexts Mock.finalized,
              [DecryptionCompleted 7 1 0 0 42]).
Proof.
  assert (Hsub : submitGrantApplication (Mock.at_time Mock.alice 2050) 2 9 9
                   (run Mock.this [(Mock.at_time Mock.alice 2040, OpenBatch 2)]
                      Mock.requested)
                 = Ok (run Mock.this
                         [(Mock.at_time Mock.alice 2040, OpenBatch 2);
                          (Mock.at_time Mock.alice 2050,
                           SubmitGrantApplication 2 9 9)] Mock.requested,
                       [GrantSubmitted Mock.alice 2 9 9]))
    by (vm_compute; reflexivity).
  do 2 eexists. split; [exact Hsub |].
  rewrite (callback_unaffected_by_other_batches Mock.this _
             (Mock.at_time Mock.carol 2100) 2 9 9 7 (Mock.word x2a)
             (Mock.word x2a) _ _ _ Hsub).
  - vm_compute. reflexivity.
  - vm_compute. discriminate.
Defined.
